(** * Chaloride: the ride-lifecycle orchestrator

    A shallow embedding of the parts of the Chaloride client that carry
    behaviour: the retrying wrapper of [services/geminiService.ts] and the
    state, handlers, effects and timer callbacks of
    [components/BookingView.tsx], with the pieces of [App.tsx] and
    [GooglePayModal.tsx] they call.

    Conventions.
    - A JavaScript [number] that only ever holds an integer is a [Z];
      durations and instants are milliseconds.
    - A React state variable is a record field and its setter replaces that
      field.  A handler maps the state to the new state and the list of
      commands it issues (toasts, [onRideComplete], [setTimeout], outbound
      calls).  A callback handed to [setTimeout] is kept as data, together
      with the values its closure captured at the render that created it.
    - [null] is [None]; a rejected promise is the [inr] of a sum.
    - A JavaScript string is kept as the bytes of its UTF-8 encoding (the
      texts are well formed: no lone surrogate).  What
      the sources ask of a string in UTF-16 code units ([length]) or in
      characters (the white space of [trim] and [parseInt]) is computed on
      these bytes. *)

From Stdlib Require Import ZArith List String Ascii Bool Lia.
Import ListNotations.

Local Open Scope string_scope.
Local Open Scope Z_scope.

(* ================================================================== *)
(** * JavaScript primitives used by the sources *)
(* ================================================================== *)

Module Js.

(** [hay.includes(needle)]: case-sensitive substring search. *)
Fixpoint includes (needle hay : string) : bool :=
  if String.prefix needle hay then true
  else match hay with
       | EmptyString => false
       | String _ rest => includes needle rest
       end.

(** A thrown [Error]: its [name] and its [message]. *)
Record Error := mkError { name : string; message : string }.

(** [Error.prototype.toString]. *)
Definition toString (e : Error) : string :=
  if String.eqb (name e) "" then message e
  else if String.eqb (message e) "" then name e
  else name e ++ ": " ++ message e.

(** [new Error(msg)]. *)
Definition newError (msg : string) : Error := mkError "Error" msg.

(** [!s] for a string: only the empty string is falsy. *)
Definition isEmpty (s : string) : bool := String.eqb s "".

(** [s.split(' ')[0]]: the text before the first space (all of [s] when it
    has none, the empty string when [s] starts with a space). *)
Fixpoint firstField (s : string) : string :=
  match s with
  | EmptyString => EmptyString
  | String c rest => if Ascii.eqb c " "%char then EmptyString else String c (firstField rest)
  end.

(** White space among the one-byte characters: TAB, LF, VT, FF, CR and the
    space. *)
Definition isWhiteSpace (c : ascii) : bool :=
  let n := nat_of_ascii c in
  ((9 <=? n)%nat && (n <=? 13)%nat) || (n =? 32)%nat.

(** The two bytes of U+00A0. *)
Definition isWhiteSpace2 (c1 c2 : ascii) : bool :=
  (nat_of_ascii c1 =? 194)%nat && (nat_of_ascii c2 =? 160)%nat.

(** The three bytes of U+1680, of U+2000 to U+200A, U+2028, U+2029 and
    U+202F, of U+205F, of U+3000 and of U+FEFF. *)
Definition isWhiteSpace3 (c1 c2 c3 : ascii) : bool :=
  let a := nat_of_ascii c1 in
  let b := nat_of_ascii c2 in
  let c := nat_of_ascii c3 in
  ((a =? 225)%nat && (b =? 154)%nat && (c =? 128)%nat)
  || ((a =? 226)%nat && (b =? 128)%nat
      && (((128 <=? c)%nat && (c <=? 138)%nat)
          || (c =? 168)%nat || (c =? 169)%nat || (c =? 175)%nat))
  || ((a =? 226)%nat && (b =? 129)%nat && (c =? 159)%nat)
  || ((a =? 227)%nat && (b =? 128)%nat && (c =? 128)%nat)
  || ((a =? 239)%nat && (b =? 187)%nat && (c =? 191)%nat).

(** [s.trimStart()], and the white space [parseInt] skips: the text from
    its first character that is not white space. *)
Fixpoint trimStart (s : string) : string :=
  match s with
  | EmptyString => EmptyString
  | String c1 r1 =>
      if isWhiteSpace c1 then trimStart r1
      else match r1 with
           | EmptyString => s
           | String c2 r2 =>
               if isWhiteSpace2 c1 c2 then trimStart r2
               else match r2 with
                    | EmptyString => s
                    | String c3 r3 => if isWhiteSpace3 c1 c2 c3 then trimStart r3 else s
                    end
           end
  end.

(** The UTF-16 code units a byte stands for: one for a one-byte character
    and for the first byte of a character of two or three bytes, two (a
    surrogate pair) for the first byte of one of four, none for a byte that
    continues a character. *)
Definition codeUnits (c : ascii) : nat :=
  let n := nat_of_ascii c in
  if (n <? 128)%nat then 1%nat
  else if (n <? 192)%nat then 0%nat
  else if (n <? 240)%nat then 1%nat
  else 2%nat.

(** [s.length]. *)
Fixpoint length (s : string) : nat :=
  match s with
  | EmptyString => 0%nat
  | String c rest => (codeUnits c + length rest)%nat
  end.

(** The bytes of the character with code point [cp]. *)
Definition utf8 (cp : N) : string :=
  if (cp <? 128)%N then String (ascii_of_N cp) EmptyString
  else if (cp <? 2048)%N then
    String (ascii_of_N (192 + cp / 64))
      (String (ascii_of_N (128 + cp mod 64)) EmptyString)
  else if (cp <? 65536)%N then
    String (ascii_of_N (224 + cp / 4096))
      (String (ascii_of_N (128 + (cp / 64) mod 64))
         (String (ascii_of_N (128 + cp mod 64)) EmptyString))
  else
    String (ascii_of_N (240 + cp / 262144))
      (String (ascii_of_N (128 + (cp / 4096) mod 64))
         (String (ascii_of_N (128 + (cp / 64) mod 64))
            (String (ascii_of_N (128 + cp mod 64)) EmptyString))).

(** The text made of the characters with the code points [cps]. *)
Definition text (cps : list N) : string :=
  fold_right (fun cp s => utf8 cp ++ s) EmptyString cps.

(** The characters that [trim] and [parseInt] take for white space: TAB,
    LF, VT, FF, CR, the space, U+00A0, U+1680, U+2000 to U+200A, U+2028,
    U+2029, U+202F, U+205F, U+3000 and U+FEFF. *)
Definition whiteSpaceCodePoints : list N :=
  [9; 10; 11; 12; 13; 32; 160; 5760;
   8192; 8193; 8194; 8195; 8196; 8197; 8198; 8199; 8200; 8201; 8202;
   8232; 8233; 8239; 8287; 12288; 65279]%N.

Definition digitValue (c : ascii) : option Z :=
  let n := Z.of_nat (nat_of_ascii c) in
  if (48 <=? n) && (n <=? 57) then Some (n - 48) else None.

(** The value of the longest prefix of decimal digits; [acc] is the value
    read so far, [None] while no digit has been read. *)
Fixpoint digits (s : string) (acc : option Z) : option Z :=
  match s with
  | EmptyString => acc
  | String c rest =>
      match digitValue c with
      | Some d => digits rest (Some (10 * match acc with Some a => a | None => 0 end + d))
      | None => acc
      end
  end.

(** [parseInt(s, 10)]; [None] is [NaN].  Leading white space is skipped, one
    sign is read, then the longest run of digits; what follows is ignored.
    (Exact for results below 2^53, where a JavaScript number is.) *)
Definition parseInt (s : string) : option Z :=
  match trimStart s with
  | String "-"%char rest => option_map Z.opp (digits rest None)
  | String "+"%char rest => digits rest None
  | t => digits t None
  end.

End Js.

(* ================================================================== *)
(** * services/geminiService.ts: [withRetry] *)
(* ================================================================== *)

Module GeminiService.

Definition MAX_RETRIES : nat := 3.

(** The test of the [catch] block: is the failure worth another attempt? *)
Definition isRetriable (e : Js.Error) : bool :=
  Js.includes "overloaded" (Js.toString e) || Js.includes "UNAVAILABLE" (Js.toString e).

(** What one run of the wrapper did, in order: [Invoked i] is
    [await apiCall()] at iteration [i], [Warned i] the [console.warn] of
    attempt [i+1], [Slept ms] the awaited back-off timer. *)
Inductive Event :=
| Invoked (i : nat)
| Warned (i : nat)
| Slept (ms : Z).

Inductive Outcome (T : Type) :=
| Returned (v : T)
| Threw (e : Js.Error).
Arguments Returned {T} v.
Arguments Threw {T} e.

Definition isInvoked (ev : Event) : bool :=
  match ev with Invoked _ => true | _ => false end.

(** Number of times the wrapped operation was called in a trace. *)
Definition attempts (log : list Event) : nat :=
  List.length (List.filter isInvoked log).

Section WithRetry.
(** [T]: what the operation resolves to.  [W]: whatever the operation reads
    and changes (the remote service); a call maps the world before it to
    its result and the world after it. *)
Context {T W : Type}.

Definition ApiCall := W -> (T + Js.Error) * W.

(** [Math.random() * 1000] as drawn at iteration [i], rounded down. *)
Variable jitter : nat -> Z.

(** [Math.pow(2, i) * 1000 + Math.random() * 1000]. *)
Definition delay (i : nat) : Z := 2 ^ Z.of_nat i * 1000 + jitter i.

(** The [for] loop, by the number of iterations left; [i] is the loop
    variable and [lastError] the variable of that name. *)
Fixpoint retryLoop (apiCall : ApiCall) (left i : nat) (lastError : option Js.Error)
         (w : W) (log : list Event) : Outcome T * W * list Event :=
  match left with
  | O =>
      (Threw (match lastError with
              | Some e => e
              | None => Js.newError "API call failed after multiple retries."
              end), w, log)
  | S left' =>
      let '(r, w') := apiCall w in
      let log := (log ++ [Invoked i])%list in
      match r with
      | inl v => (Returned v, w', log)
      | inr e =>
          if isRetriable e
          then retryLoop apiCall left' (S i) (Some e) w'
                 (log ++ [Warned i; Slept (delay i)])%list
          else (Threw e, w', log)
      end
  end.

Definition withRetry (apiCall : ApiCall) (w : W) : Outcome T * W * list Event :=
  retryLoop apiCall MAX_RETRIES 0 None w [].

Definition outcomeOf (r : Outcome T * W * list Event) : Outcome T := fst (fst r).
Definition worldOf (r : Outcome T * W * list Event) : W := snd (fst r).
Definition logOf (r : Outcome T * W * list Event) : list Event := snd r.

(** The retry policy, for a given reading [transient] of "transient signal":
    success on the third attempt after two transient failures, one attempt
    for any other failure, the last error after three transient failures. *)
Definition retry_policy (transient : Js.Error -> bool) : Prop :=
  forall (apiCall : ApiCall) (w0 : W),
    (forall e1 e2 v w1 w2 w3,
        apiCall w0 = (inr e1, w1) -> transient e1 = true ->
        apiCall w1 = (inr e2, w2) -> transient e2 = true ->
        apiCall w2 = (inl v, w3) ->
        outcomeOf (withRetry apiCall w0) = Returned v
        /\ worldOf (withRetry apiCall w0) = w3
        /\ attempts (logOf (withRetry apiCall w0)) = 3%nat)
    /\ (forall e w1,
        apiCall w0 = (inr e, w1) -> transient e = false ->
        outcomeOf (withRetry apiCall w0) = Threw e
        /\ worldOf (withRetry apiCall w0) = w1
        /\ attempts (logOf (withRetry apiCall w0)) = 1%nat)
    /\ (forall e1 e2 e3 w1 w2 w3,
        apiCall w0 = (inr e1, w1) -> transient e1 = true ->
        apiCall w1 = (inr e2, w2) -> transient e2 = true ->
        apiCall w2 = (inr e3, w3) -> transient e3 = true ->
        outcomeOf (withRetry apiCall w0) = Threw e3
        /\ worldOf (withRetry apiCall w0) = w3
        /\ attempts (logOf (withRetry apiCall w0)) = 3%nat).

End WithRetry.

(** The classification as the specification words it: the error text
    contains "overloaded" or "unavailable". *)
Definition spec_transient (e : Js.Error) : bool :=
  Js.includes "overloaded" (Js.toString e) || Js.includes "unavailable" (Js.toString e).

(** A scripted operation for examples: the world is the list of results
    still to be handed out; an exhausted script keeps failing. *)
Definition scripted (T : Type) : @ApiCall T (list (T + Js.Error)) :=
  fun w => match w with
           | [] => (inr (Js.newError "script exhausted"), [])
           | r :: rest => (r, rest)
           end.

Definition noJitter : nat -> Z := fun _ => 0.

Definition flaky503 : list (string + Js.Error) :=
  [inr (Js.newError "503 UNAVAILABLE"); inr (Js.newError "The model is overloaded.");
   inl "ok"].

End GeminiService.

(* ================================================================== *)
(** * types.ts *)
(* ================================================================== *)

Inductive RideStatus := IDLE | SEARCHING | CONFIRMED | PAID | COMPLETED | ERROR.

Inductive Vehicle := BIKE | AUTO | CAR.

Record RideDetails := mkRideDetails {
  driverName : string;
  driverPhotoUrl : string;
  driverBio : string;
  vehicleModel : string;
  licensePlate : string;
  eta : string;
  fare : string
}.

Inductive PaymentType := CARD | CASH | GOOGLE_PAY | PHONE_PE.

(** [PaymentMethod]; its fields [id] and [type] are [pm_id] and [pm_type]. *)
Record PaymentMethod := mkPaymentMethod {
  pm_id : string;
  pm_type : PaymentType;
  brand : option string;
  last4 : option string
}.

(** [CompletedRide extends RideDetails]. *)
Record CompletedRide := mkCompletedRide {
  cr_details : RideDetails;
  cr_id : string;
  cr_pickup : string;
  cr_destination : string;
  cr_date : string;
  cr_rating : option Z
}.

Record FareEstimate := mkFareEstimate { estimatedFare : string }.

Definition RideStatus_eqb (a b : RideStatus) : bool :=
  match a, b with
  | IDLE, IDLE | SEARCHING, SEARCHING | CONFIRMED, CONFIRMED
  | PAID, PAID | COMPLETED, COMPLETED | ERROR, ERROR => true
  | _, _ => false
  end.

Definition PaymentType_eqb (a b : PaymentType) : bool :=
  match a, b with
  | CARD, CARD | CASH, CASH | GOOGLE_PAY, GOOGLE_PAY | PHONE_PE, PHONE_PE => true
  | _, _ => false
  end.

Definition isSome {A : Type} (o : option A) : bool :=
  match o with Some _ => true | None => false end.

(* ================================================================== *)
(** * components/BookingView.tsx: state *)
(* ================================================================== *)

(** [{ top: '40%', left: '60%' }]. *)
Record DriverPosition := mkDriverPosition { pos_top : string; pos_left : string }.

(** ['idle' | 'confirm' | 'reason']. *)
Inductive CancellationStep := StepIdle | StepConfirm | StepReason.

Definition CancellationStep_eqb (a b : CancellationStep) : bool :=
  match a, b with
  | StepIdle, StepIdle | StepConfirm, StepConfirm | StepReason, StepReason => true
  | _, _ => false
  end.

(** The props [pickup], [destination], [vehicle] and [passengerCount] (state
    of [App], written through the setter props) and the [useState] variables
    of [BookingView].  [suggestions], [isLoadingSuggestions] and
    [loadingMessage] are left out: nothing below reads or writes them. *)
Record State := mkState {
  pickup : string;
  destination : string;
  vehicle : Vehicle;
  passengerCount : Z;
  rideStatus : RideStatus;
  rideDetails : option RideDetails;
  error : option string;
  payingMethodId : option string;
  isShowingHistory : bool;
  selectedRide : option CompletedRide;
  isMapVisible : bool;
  driverPosition : DriverPosition;
  cancellationStep : CancellationStep;
  cancellationReason : string;
  fareEstimate : option FareEstimate;
  isEstimating : bool;
  dynamicEta : option Z;
  rideTrackingLink : option string;
  isShareModalOpen : bool;
  isGPayModalOpen : bool
}.

(** The state setters.  Each replaces one field. *)
Definition setPickup (v : string) (s : State) : State :=
  mkState v (destination s) (vehicle s) (passengerCount s) (rideStatus s) (rideDetails s)
    (error s) (payingMethodId s) (isShowingHistory s) (selectedRide s) (isMapVisible s)
    (driverPosition s) (cancellationStep s) (cancellationReason s) (fareEstimate s)
    (isEstimating s) (dynamicEta s) (rideTrackingLink s) (isShareModalOpen s)
    (isGPayModalOpen s).
Definition setDestination (v : string) (s : State) : State :=
  mkState (pickup s) v (vehicle s) (passengerCount s) (rideStatus s) (rideDetails s)
    (error s) (payingMethodId s) (isShowingHistory s) (selectedRide s) (isMapVisible s)
    (driverPosition s) (cancellationStep s) (cancellationReason s) (fareEstimate s)
    (isEstimating s) (dynamicEta s) (rideTrackingLink s) (isShareModalOpen s)
    (isGPayModalOpen s).
Definition setVehicle (v : Vehicle) (s : State) : State :=
  mkState (pickup s) (destination s) v (passengerCount s) (rideStatus s) (rideDetails s)
    (error s) (payingMethodId s) (isShowingHistory s) (selectedRide s) (isMapVisible s)
    (driverPosition s) (cancellationStep s) (cancellationReason s) (fareEstimate s)
    (isEstimating s) (dynamicEta s) (rideTrackingLink s) (isShareModalOpen s)
    (isGPayModalOpen s).
Definition setPassengerCount (v : Z) (s : State) : State :=
  mkState (pickup s) (destination s) (vehicle s) v (rideStatus s) (rideDetails s)
    (error s) (payingMethodId s) (isShowingHistory s) (selectedRide s) (isMapVisible s)
    (driverPosition s) (cancellationStep s) (cancellationReason s) (fareEstimate s)
    (isEstimating s) (dynamicEta s) (rideTrackingLink s) (isShareModalOpen s)
    (isGPayModalOpen s).
Definition setRideStatus (v : RideStatus) (s : State) : State :=
  mkState (pickup s) (destination s) (vehicle s) (passengerCount s) v (rideDetails s)
    (error s) (payingMethodId s) (isShowingHistory s) (selectedRide s) (isMapVisible s)
    (driverPosition s) (cancellationStep s) (cancellationReason s) (fareEstimate s)
    (isEstimating s) (dynamicEta s) (rideTrackingLink s) (isShareModalOpen s)
    (isGPayModalOpen s).
Definition setRideDetails (v : option RideDetails) (s : State) : State :=
  mkState (pickup s) (destination s) (vehicle s) (passengerCount s) (rideStatus s) v
    (error s) (payingMethodId s) (isShowingHistory s) (selectedRide s) (isMapVisible s)
    (driverPosition s) (cancellationStep s) (cancellationReason s) (fareEstimate s)
    (isEstimating s) (dynamicEta s) (rideTrackingLink s) (isShareModalOpen s)
    (isGPayModalOpen s).
Definition setError (v : option string) (s : State) : State :=
  mkState (pickup s) (destination s) (vehicle s) (passengerCount s) (rideStatus s)
    (rideDetails s) v (payingMethodId s) (isShowingHistory s) (selectedRide s)
    (isMapVisible s) (driverPosition s) (cancellationStep s) (cancellationReason s)
    (fareEstimate s) (isEstimating s) (dynamicEta s) (rideTrackingLink s)
    (isShareModalOpen s) (isGPayModalOpen s).
Definition setPayingMethodId (v : option string) (s : State) : State :=
  mkState (pickup s) (destination s) (vehicle s) (passengerCount s) (rideStatus s)
    (rideDetails s) (error s) v (isShowingHistory s) (selectedRide s) (isMapVisible s)
    (driverPosition s) (cancellationStep s) (cancellationReason s) (fareEstimate s)
    (isEstimating s) (dynamicEta s) (rideTrackingLink s) (isShareModalOpen s)
    (isGPayModalOpen s).
Definition setIsShowingHistory (v : bool) (s : State) : State :=
  mkState (pickup s) (destination s) (vehicle s) (passengerCount s) (rideStatus s)
    (rideDetails s) (error s) (payingMethodId s) v (selectedRide s) (isMapVisible s)
    (driverPosition s) (cancellationStep s) (cancellationReason s) (fareEstimate s)
    (isEstimating s) (dynamicEta s) (rideTrackingLink s) (isShareModalOpen s)
    (isGPayModalOpen s).
Definition setSelectedRide (v : option CompletedRide) (s : State) : State :=
  mkState (pickup s) (destination s) (vehicle s) (passengerCount s) (rideStatus s)
    (rideDetails s) (error s) (payingMethodId s) (isShowingHistory s) v (isMapVisible s)
    (driverPosition s) (cancellationStep s) (cancellationReason s) (fareEstimate s)
    (isEstimating s) (dynamicEta s) (rideTrackingLink s) (isShareModalOpen s)
    (isGPayModalOpen s).
Definition setIsMapVisible (v : bool) (s : State) : State :=
  mkState (pickup s) (destination s) (vehicle s) (passengerCount s) (rideStatus s)
    (rideDetails s) (error s) (payingMethodId s) (isShowingHistory s) (selectedRide s) v
    (driverPosition s) (cancellationStep s) (cancellationReason s) (fareEstimate s)
    (isEstimating s) (dynamicEta s) (rideTrackingLink s) (isShareModalOpen s)
    (isGPayModalOpen s).
Definition setDriverPosition (v : DriverPosition) (s : State) : State :=
  mkState (pickup s) (destination s) (vehicle s) (passengerCount s) (rideStatus s)
    (rideDetails s) (error s) (payingMethodId s) (isShowingHistory s) (selectedRide s)
    (isMapVisible s) v (cancellationStep s) (cancellationReason s) (fareEstimate s)
    (isEstimating s) (dynamicEta s) (rideTrackingLink s) (isShareModalOpen s)
    (isGPayModalOpen s).
Definition setCancellationStep (v : CancellationStep) (s : State) : State :=
  mkState (pickup s) (destination s) (vehicle s) (passengerCount s) (rideStatus s)
    (rideDetails s) (error s) (payingMethodId s) (isShowingHistory s) (selectedRide s)
    (isMapVisible s) (driverPosition s) v (cancellationReason s) (fareEstimate s)
    (isEstimating s) (dynamicEta s) (rideTrackingLink s) (isShareModalOpen s)
    (isGPayModalOpen s).
Definition setCancellationReason (v : string) (s : State) : State :=
  mkState (pickup s) (destination s) (vehicle s) (passengerCount s) (rideStatus s)
    (rideDetails s) (error s) (payingMethodId s) (isShowingHistory s) (selectedRide s)
    (isMapVisible s) (driverPosition s) (cancellationStep s) v (fareEstimate s)
    (isEstimating s) (dynamicEta s) (rideTrackingLink s) (isShareModalOpen s)
    (isGPayModalOpen s).
Definition setFareEstimate (v : option FareEstimate) (s : State) : State :=
  mkState (pickup s) (destination s) (vehicle s) (passengerCount s) (rideStatus s)
    (rideDetails s) (error s) (payingMethodId s) (isShowingHistory s) (selectedRide s)
    (isMapVisible s) (driverPosition s) (cancellationStep s) (cancellationReason s) v
    (isEstimating s) (dynamicEta s) (rideTrackingLink s) (isShareModalOpen s)
    (isGPayModalOpen s).
Definition setIsEstimating (v : bool) (s : State) : State :=
  mkState (pickup s) (destination s) (vehicle s) (passengerCount s) (rideStatus s)
    (rideDetails s) (error s) (payingMethodId s) (isShowingHistory s) (selectedRide s)
    (isMapVisible s) (driverPosition s) (cancellationStep s) (cancellationReason s)
    (fareEstimate s) v (dynamicEta s) (rideTrackingLink s) (isShareModalOpen s)
    (isGPayModalOpen s).
Definition setDynamicEta (v : option Z) (s : State) : State :=
  mkState (pickup s) (destination s) (vehicle s) (passengerCount s) (rideStatus s)
    (rideDetails s) (error s) (payingMethodId s) (isShowingHistory s) (selectedRide s)
    (isMapVisible s) (driverPosition s) (cancellationStep s) (cancellationReason s)
    (fareEstimate s) (isEstimating s) v (rideTrackingLink s) (isShareModalOpen s)
    (isGPayModalOpen s).
Definition setRideTrackingLink (v : option string) (s : State) : State :=
  mkState (pickup s) (destination s) (vehicle s) (passengerCount s) (rideStatus s)
    (rideDetails s) (error s) (payingMethodId s) (isShowingHistory s) (selectedRide s)
    (isMapVisible s) (driverPosition s) (cancellationStep s) (cancellationReason s)
    (fareEstimate s) (isEstimating s) (dynamicEta s) v (isShareModalOpen s)
    (isGPayModalOpen s).
Definition setIsShareModalOpen (v : bool) (s : State) : State :=
  mkState (pickup s) (destination s) (vehicle s) (passengerCount s) (rideStatus s)
    (rideDetails s) (error s) (payingMethodId s) (isShowingHistory s) (selectedRide s)
    (isMapVisible s) (driverPosition s) (cancellationStep s) (cancellationReason s)
    (fareEstimate s) (isEstimating s) (dynamicEta s) (rideTrackingLink s) v
    (isGPayModalOpen s).
Definition setIsGPayModalOpen (v : bool) (s : State) : State :=
  mkState (pickup s) (destination s) (vehicle s) (passengerCount s) (rideStatus s)
    (rideDetails s) (error s) (payingMethodId s) (isShowingHistory s) (selectedRide s)
    (isMapVisible s) (driverPosition s) (cancellationStep s) (cancellationReason s)
    (fareEstimate s) (isEstimating s) (dynamicEta s) (rideTrackingLink s)
    (isShareModalOpen s) v.

(** The first render: the [useState] initial values, and [App]'s. *)
Definition initialState : State :=
  mkState "" "" CAR 1 IDLE None None None false None true
    (mkDriverPosition "40%" "60%") StepIdle "" None false None None false false.

(* ================================================================== *)
(** * components/BookingView.tsx: handlers and effects *)
(* ================================================================== *)

(** The argument of [onRideComplete]: [{ pickup, destination, ...rideDetails }]. *)
Record RidePayload := mkRidePayload {
  ride_pickup : string;
  ride_destination : string;
  ride_details : RideDetails
}.

(** What the closure of [completeRideAction] holds: the [rideDetails],
    [pickup] and [destination] of the render that created it. *)
Record Closure := mkClosure {
  cl_rideDetails : option RideDetails;
  cl_pickup : string;
  cl_destination : string
}.

Definition closureOf (s : State) : Closure :=
  mkClosure (rideDetails s) (pickup s) (destination s).

(** The two callbacks given to [setTimeout]: [() => completeRideAction()] of
    [handlePayment], and [() => onSuccess()] of the Google Pay modal, whose
    [onSuccess] is [handleGPaySuccess]. *)
Inductive Callback :=
| CompleteRide (c : Closure)
| GPaySuccess (c : Closure).

Inductive Cmd :=
| ShowToast (message : string)
| OnRideComplete (ride : RidePayload)
| SetTimeout (cb : Callback) (ms : Z)
| GenerateRideDetails (p d : string) (v : Vehicle) (pc : Z)
| EstimateFare (p d : string) (v : Vehicle) (pc : Z)
| ConsoleLog (text : string)
| ConsoleError (text : string).

Definition Handler := State -> State * list Cmd.

Definition skip : Handler := fun s => (s, []).
Definition set (f : State -> State) : Handler := fun s => (f s, []).
Definition emit (c : Cmd) : Handler := fun s => (s, [c]).
Definition andThen (h1 h2 : Handler) : Handler :=
  fun s => let '(s1, c1) := h1 s in
           let '(s2, c2) := h2 s1 in
           (s2, (c1 ++ c2)%list).

Notation "h1 ;; h2" := (andThen h1 h2) (at level 61, right associativity).

Definition CANCELLATION_REASONS : list string :=
  ["Driver is too far";
   "Changed my mind";
   "Booked by mistake";
   "Longer wait time than expected";
   "Found another ride"].

(** ** The passenger clamp (an effect on [vehicle], [passengerCount]) *)

Definition maxPassengers (v : Vehicle) : Z :=
  match v with BIKE => 1 | AUTO => 4 | CAR => 4 end.

Definition clampEffect (s : State) : State :=
  if passengerCount s >? maxPassengers (vehicle s)
  then setPassengerCount (maxPassengers (vehicle s)) s
  else s.

(** A vehicle change: the button's [setVehicle(v)], then the effect that the
    changed [vehicle] re-runs. *)
Definition changeVehicle (v : Vehicle) (s : State) : State :=
  clampEffect (setVehicle v s).

Definition handleIncrement (s : State) : State :=
  if passengerCount s <? maxPassengers (vehicle s)
  then setPassengerCount (passengerCount s + 1) s
  else s.

Definition handleDecrement (s : State) : State :=
  if passengerCount s >? 1 then setPassengerCount (passengerCount s - 1) s else s.

(** ** Live tracking (the effect on [rideStatus], [rideDetails], [showToast]) *)

(** [parseInt(rideDetails.eta.split(' ')[0], 10)]. *)
Definition initialEta (rd : RideDetails) : option Z :=
  Js.parseInt (Js.firstField (eta rd)).

(** The intervals run while this holds. *)
Definition trackingActive (s : State) : bool :=
  RideStatus_eqb (rideStatus s) CONFIRMED && isSome (rideDetails s).

(** The body of the effect up to the timers: "Initialize ETA". *)
Definition trackingEffect : Handler := fun s =>
  match rideStatus s, rideDetails s with
  | CONFIRMED, Some rd =>
      match initialEta rd with
      | Some n => set (setDynamicEta (Some n)) s
      | None => skip s
      end
  | _, _ => skip s
  end.

(** The updater that [etaInterval] hands to [setDynamicEta]. *)
Definition etaUpdater (prevEta : option Z) : option Z * list Cmd :=
  match prevEta with
  | Some p =>
      if p >? 0
      then let newEta := p - 1 in
           (Some newEta,
            if newEta =? 2 then [ShowToast "Your driver is 2 minutes away!"] else [])
      else (Some 0, [])
  | None => (Some 0, [])
  end.

(** One firing of [etaInterval]. *)
Definition etaTick : Handler := fun s =>
  let '(e, cmds) := etaUpdater (dynamicEta s) in (setDynamicEta e s, cmds).

(** [n] firings in a row, nothing else in between. *)
Fixpoint etaTicks (n : nat) : Handler :=
  match n with
  | O => skip
  | S n' => etaTicks n' ;; etaTick
  end.

(** What the confirmed view shows as arrival time:
    [dynamicEta !== null ? `${dynamicEta} min` : rideDetails.eta]; [inl n]
    stands for the text "n min". *)
Definition displayedEta (s : State) (rd : RideDetails) : Z + string :=
  match dynamicEta s with
  | Some n => inl n
  | None => inr (eta rd)
  end.

Definition isToast (c : Cmd) : bool :=
  match c with ShowToast _ => true | _ => false end.

(** How many toasts a list of commands shows. *)
Definition toastCount (cmds : list Cmd) : nat := List.length (List.filter isToast cmds).

(** ** Fare estimate (the callback of the debounce timer) *)

(** The arguments of [debouncedEstimate]. *)
Record Inputs := mkInputs { in_p : string; in_d : string; in_v : Vehicle; in_pc : Z }.

(** The timer's callback up to its [await]. *)
Definition estimateTimerFires (i : Inputs) : Handler :=
  if (Z.of_nat (Js.length (in_p i)) >? 2) && (Z.of_nat (Js.length (in_d i)) >? 2)
  then set (setIsEstimating true) ;;
       set (setFareEstimate None) ;;
       emit (EstimateFare (in_p i) (in_d i) (in_v i) (in_pc i))
  else set (setFareEstimate None).

(** The rest of the callback, once [estimateFare] settled: the end of the
    [try] block or the [catch] block, then [finally]. *)
Definition estimateSettles (r : FareEstimate + Js.Error) : Handler :=
  match r with
  | inl estimate => set (setFareEstimate (Some estimate))
  | inr e => emit (ConsoleError ("Fare estimation error: " ++ Js.toString e))
  end ;;
  set (setIsEstimating false).

(** What the form shows of the estimate:
    [isEstimating ? "Estimating fare..." : fareEstimate ? ... : null]. *)
Definition shownEstimate (s : State) : option FareEstimate :=
  if isEstimating s then None else fareEstimate s.

(** ** Search *)

(** What [handleFindRide] reads from the browser after the call resolved. *)
Record BrowserEnv := mkBrowserEnv {
  origin : string;          (* window.location.origin *)
  dateNow : string;         (* `${Date.now()}` *)
  randomToken : string      (* Math.random().toString(36).substring(2, 9) *)
}.

Definition uniqueRideId (env : BrowserEnv) : string := dateNow env ++ "-" ++ randomToken env.

(** [handleFindRide] up to its [await]. *)
Definition handleFindRide : Handler := fun s =>
  if Js.isEmpty (pickup s) || Js.isEmpty (destination s)
  then set (setError (Some "Please enter both pickup and destination.")) s
  else (set (setError None) ;;
        set (setRideStatus SEARCHING) ;;
        emit (GenerateRideDetails (pickup s) (destination s) (vehicle s) (passengerCount s))) s.

(** The rest of the [try] block, once [generateRideDetails] resolved with
    [details]; [p] and [d] are the [pickup] and [destination] of the closure. *)
Definition handleFindRide_resolved (p d : string) (details : RideDetails)
           (env : BrowserEnv) : Handler :=
  set (setRideDetails (Some details)) ;;
  set (setRideStatus CONFIRMED) ;;
  set (setRideTrackingLink (Some (origin env ++ "/track?rideId=" ++ uniqueRideId env))) ;;
  emit (ConsoleLog ("[ADMIN NOTIFICATION] Ride booked: " ++ p ++ " to " ++ d
                    ++ ". Simulating notification to rishikeshsangolge19@gmail.com"
                    ++ " and +918762042431.")).

(** The [catch] block. *)
Definition handleFindRide_rejected (e : Js.Error) : Handler :=
  emit (ConsoleError (Js.toString e)) ;;
  set (setError (Some "Could not find a ride. Please try again later.")) ;;
  set (setRideStatus ERROR).

(** ** Payment *)

Definition completeRideAction (c : Closure) : Handler :=
  match cl_rideDetails c with
  | Some rd => emit (OnRideComplete (mkRidePayload (cl_pickup c) (cl_destination c) rd))
  | None => skip
  end ;;
  set (setPayingMethodId None) ;;
  set (setRideStatus PAID) ;;
  set (setDynamicEta None) ;;
  set (setIsGPayModalOpen false).

Definition handlePayment (method : PaymentMethod) : Handler := fun s =>
  (set (setPayingMethodId (Some (pm_id method))) ;;
   if PaymentType_eqb (pm_type method) GOOGLE_PAY
   then set (setIsGPayModalOpen true)
   else
     let delay := if PaymentType_eqb (pm_type method) CASH then 500 else 2000 in
     emit (SetTimeout (CompleteRide (closureOf s)) delay)) s.

Definition handleGPaySuccess (c : Closure) : Handler :=
  emit (ShowToast "Payment successful!") ;;
  completeRideAction c.

Definition handleGPayCancel : Handler :=
  set (setIsGPayModalOpen false) ;;
  set (setPayingMethodId None).

(** [handlePay] of [GooglePayModal], rendered by a [BookingView] in state
    [s]: the modal's [isProcessing] becomes [true], and [onSuccess] is
    called 2500 ms later. *)
Definition GooglePayModal_handlePay (s : State) : bool * list Cmd :=
  (true, [SetTimeout (GPaySuccess (closureOf s)) 2500]).

(** What a timer callback does when it fires. *)
Definition runCallback (cb : Callback) : Handler :=
  match cb with
  | CompleteRide c => completeRideAction c
  | GPaySuccess c => handleGPaySuccess c
  end.

(** ** New ride and cancellation *)

Definition handleNewRide : Handler :=
  set (setRideStatus IDLE) ;;
  set (setRideDetails None) ;;
  set (setPickup "") ;;
  set (setDestination "") ;;
  set (setFareEstimate None) ;;
  set (setError None) ;;
  set (setDynamicEta None) ;;
  set (setSelectedRide None) ;;
  set (setIsShowingHistory false) ;;
  set (setCancellationStep StepIdle) ;;
  set (setCancellationReason "") ;;
  set (setRideTrackingLink None) ;;
  set (setIsShareModalOpen false).

Definition handleCancelRide : Handler := fun s =>
  if CancellationStep_eqb (cancellationStep s) StepReason && Js.isEmpty (cancellationReason s)
  then emit (ShowToast "Please select a reason.") s
  else (emit (ShowToast "Your ride has been cancelled.") ;;
        emit (ConsoleLog ("Ride cancelled. Reason: " ++ cancellationReason s)) ;;
        handleNewRide) s.

(* ================================================================== *)
(** * The orchestrator as a transition system *)
(* ================================================================== *)

(** [l] without its [k]-th element. *)
Definition removeNth {A : Type} (k : nat) (l : list A) : list A :=
  (firstn k l ++ skipn (S k) l)%list.

Module Orchestrator.

(** What is mounted and pending around one [BookingView]: its state, the
    clock, the [setTimeout] callbacks not yet fired (with the instant each
    is due), the [generateRideDetails] calls not yet settled (with the
    [pickup] and [destination] their continuation captured), the
    [isProcessing] of the Google Pay modal, and what was handed to the
    collaborators so far: the [onRideComplete] calls and the toasts, oldest
    first. *)
Record World := mkWorld {
  ui : State;
  clock : Z;
  timers : list (Z * Callback);
  searches : list (string * string);
  gpayIsProcessing : bool;
  completed : list RidePayload;
  toasts : list string
}.

Definition initialWorld : World := mkWorld initialState 0 [] [] false [] [].

Definition withUi (s : State) (w : World) : World :=
  mkWorld s (clock w) (timers w) (searches w) (gpayIsProcessing w) (completed w) (toasts w).
Definition withClock (t : Z) (w : World) : World :=
  mkWorld (ui w) t (timers w) (searches w) (gpayIsProcessing w) (completed w) (toasts w).
Definition withTimers (l : list (Z * Callback)) (w : World) : World :=
  mkWorld (ui w) (clock w) l (searches w) (gpayIsProcessing w) (completed w) (toasts w).
Definition withSearches (l : list (string * string)) (w : World) : World :=
  mkWorld (ui w) (clock w) (timers w) l (gpayIsProcessing w) (completed w) (toasts w).
Definition withGpayIsProcessing (b : bool) (w : World) : World :=
  mkWorld (ui w) (clock w) (timers w) (searches w) b (completed w) (toasts w).
Definition withCompleted (l : list RidePayload) (w : World) : World :=
  mkWorld (ui w) (clock w) (timers w) (searches w) (gpayIsProcessing w) l (toasts w).
Definition withToasts (l : list string) (w : World) : World :=
  mkWorld (ui w) (clock w) (timers w) (searches w) (gpayIsProcessing w) (completed w) l.

(** Carrying out one command.  The fare-estimate call belongs to the
    estimator below and the console is not kept. *)
Definition perform (w : World) (c : Cmd) : World :=
  match c with
  | ShowToast m => withToasts (toasts w ++ [m]) w
  | OnRideComplete r => withCompleted (completed w ++ [r]) w
  | SetTimeout cb ms => withTimers (timers w ++ [(clock w + ms, cb)]) w
  | GenerateRideDetails p d _ _ => withSearches (searches w ++ [(p, d)]) w
  | EstimateFare _ _ _ _ => w
  | ConsoleLog _ => w
  | ConsoleError _ => w
  end.

(** ** What is on screen *)

(** [isGPayModalOpen && rideDetails]: the modal, above everything. *)
Definition gpayModalShown (s : State) : bool :=
  isGPayModalOpen s && isSome (rideDetails s).

(** [cancellationStep !== 'idle']: the cancellation dialog. *)
Definition cancelDialogShown (s : State) : bool :=
  negb (CancellationStep_eqb (cancellationStep s) StepIdle).

(** The bottom sheet takes clicks when no overlay covers it. *)
Definition sheetClickable (s : State) : bool :=
  negb (gpayModalShown s) && negb (cancelDialogShown s) && negb (isShareModalOpen s).

Definition dialogClickable (s : State) : bool :=
  cancelDialogShown s && negb (gpayModalShown s) && negb (isShareModalOpen s).

(** [renderContent]: the booking form is the [IDLE] and [default] case. *)
Definition formShown (s : State) : bool :=
  match rideStatus s with
  | SEARCHING | CONFIRMED | PAID | ERROR => false
  | IDLE | COMPLETED => true
  end.

(** The ride card of the [CONFIRMED] case, drawn when [rideDetails] is set. *)
Definition cardShown (s : State) : bool := trackingActive s.

(** The [PAID] and [ERROR] cases, each with its [handleNewRide] button. *)
Definition resultShown (s : State) : bool :=
  match rideStatus s with
  | PAID | ERROR => true
  | _ => false
  end.

(** A payment button is disabled while [payingMethodId === method.id]. *)
Definition isPaying (s : State) (m : PaymentMethod) : bool :=
  match payingMethodId s with
  | Some i => String.eqb i (pm_id m)
  | None => false
  end.

(** ** Steps *)

(** After a handler ran: the commands are carried out, the passenger clamp
    runs, and a Google Pay modal that is no longer drawn loses its state. *)
Definition commit (r : State * list Cmd) (w : World) : World :=
  let s := clampEffect (fst r) in
  let w := fold_left perform (snd r) (withUi s w) in
  withGpayIsProcessing (gpayIsProcessing w && gpayModalShown s) w.

Definition dispatch (h : Handler) (w : World) : World := commit (h (ui w)) w.

Inductive Action :=
| TypePickup (text : string)
| TypeDestination (text : string)
| ClickVehicle (v : Vehicle)
| ClickIncrement
| ClickDecrement
| ClickFindRide
| SearchSettles (k : nat) (r : RideDetails + Js.Error) (env : BrowserEnv)
| ClickPay (m : PaymentMethod)
| GPayClickPay
| GPayClickCancel
| TimerFires (k : nat)
| ClickCancelRide
| ClickKeepRide
| ClickYesCancel
| ClickReason (reason : string)
| ClickConfirmCancellation
| ClickNewRide
| TrackingEffectRuns
| EtaTick
| DriverMoves (p : DriverPosition)
| Elapse (d : Z).

Definition when (b : bool) (w : World) : option World := if b then Some w else None.

(** One step; [None] when the action is not possible in [w]: the control is
    not drawn, is disabled or is covered, the timer is not due, or time
    would pass a due timer.  The tracking effect re-runs whenever one of
    its dependencies changes: after a search resolved, and at any other
    moment ([TrackingEffectRuns]), since [showToast] is a new function at
    every render of [App]. *)
Definition step (a : Action) (w : World) : option World :=
  let s := ui w in
  match a with
  | TypePickup text =>
      when (sheetClickable s && formShown s) (dispatch (set (setPickup text)) w)
  | TypeDestination text =>
      when (sheetClickable s && formShown s) (dispatch (set (setDestination text)) w)
  | ClickVehicle v =>
      when (sheetClickable s && formShown s) (dispatch (set (setVehicle v)) w)
  | ClickIncrement =>
      when (sheetClickable s && formShown s) (dispatch (set handleIncrement) w)
  | ClickDecrement =>
      when (sheetClickable s && formShown s) (dispatch (set handleDecrement) w)
  | ClickFindRide =>
      when (sheetClickable s && formShown s
            && negb (Js.isEmpty (pickup s) || Js.isEmpty (destination s)))
           (dispatch handleFindRide w)
  | SearchSettles k r env =>
      match nth_error (searches w) k with
      | Some (p, d) =>
          let w' := withSearches (removeNth k (searches w)) w in
          Some (match r with
                | inl details =>
                    dispatch (handleFindRide_resolved p d details env ;; trackingEffect) w'
                | inr e => dispatch (handleFindRide_rejected e) w'
                end)
      | None => None
      end
  | ClickPay m =>
      when (sheetClickable s && cardShown s && negb (isPaying s m))
           (dispatch (handlePayment m) w)
  | GPayClickPay =>
      when (gpayModalShown s && negb (gpayIsProcessing w))
           (withGpayIsProcessing (fst (GooglePayModal_handlePay s))
              (commit (s, snd (GooglePayModal_handlePay s)) w))
  | GPayClickCancel =>
      when (gpayModalShown s && negb (gpayIsProcessing w)) (dispatch handleGPayCancel w)
  | TimerFires k =>
      match nth_error (timers w) k with
      | Some (due, cb) =>
          when (due <=? clock w)
               (dispatch (runCallback cb) (withTimers (removeNth k (timers w)) w))
      | None => None
      end
  | ClickCancelRide =>
      when (sheetClickable s && cardShown s)
           (dispatch (set (setCancellationStep StepConfirm)) w)
  | ClickKeepRide =>
      when (dialogClickable s && CancellationStep_eqb (cancellationStep s) StepConfirm)
           (dispatch (set (setCancellationStep StepIdle)) w)
  | ClickYesCancel =>
      when (dialogClickable s && CancellationStep_eqb (cancellationStep s) StepConfirm)
           (dispatch (set (setCancellationStep StepReason)) w)
  | ClickReason reason =>
      when (dialogClickable s && CancellationStep_eqb (cancellationStep s) StepReason
            && existsb (String.eqb reason) CANCELLATION_REASONS)
           (dispatch (set (setCancellationReason reason)) w)
  | ClickConfirmCancellation =>
      when (dialogClickable s && CancellationStep_eqb (cancellationStep s) StepReason
            && negb (Js.isEmpty (cancellationReason s)))
           (dispatch handleCancelRide w)
  | ClickNewRide =>
      when (sheetClickable s && resultShown s) (dispatch handleNewRide w)
  | TrackingEffectRuns => Some (dispatch trackingEffect w)
  | EtaTick => when (trackingActive s) (dispatch etaTick w)
  | DriverMoves p => when (trackingActive s) (dispatch (set (setDriverPosition p)) w)
  | Elapse d =>
      when ((0 <=? d) && forallb (fun t => clock w + d <=? fst t) (timers w))
           (withClock (clock w + d) w)
  end.

Fixpoint run (acts : list Action) (w : World) : option World :=
  match acts with
  | [] => Some w
  | a :: rest =>
      match step a w with
      | Some w' => run rest w'
      | None => None
      end
  end.

Definition reachable (w : World) : Prop :=
  exists acts, run acts initialWorld = Some w.

(** The five values the orchestrator uses. *)
Definition isLifecycleStatus (r : RideStatus) : bool :=
  match r with
  | IDLE | SEARCHING | CONFIRMED | PAID | ERROR => true
  | COMPLETED => false
  end.

(** ** A ride that is cancelled while its card payment is pending *)

Definition offer8 : RideDetails :=
  mkRideDetails "Ravi Kumar" "https://picsum.photos/seed/ravi/200/200"
    "5-star driver with 4 years of experience." "Maruti Suzuki Swift" "KA 38 AB 1234"
    "8 min" "120".

Definition visa : PaymentMethod := mkPaymentMethod "1" CARD (Some "Visa") (Some "4242").
Definition cash : PaymentMethod := mkPaymentMethod "CASH" CASH None None.
Definition gpay : PaymentMethod := mkPaymentMethod "gpay" GOOGLE_PAY None None.

Definition browser : BrowserEnv :=
  mkBrowserEnv "https://chaloride.example" "1762140000000" "k3x9q2a".

(** Book a ride, choose the card, then cancel within the card's two seconds. *)
Definition bookPayCancel : list Action :=
  [TypePickup "MG Road"; TypeDestination "Bus Stand"; ClickFindRide;
   SearchSettles 0 (inl offer8) browser;
   ClickPay visa;
   Elapse 300; ClickCancelRide;
   Elapse 300; ClickYesCancel;
   Elapse 300; ClickReason "Changed my mind";
   Elapse 300; ClickConfirmCancellation].

End Orchestrator.

(* ================================================================== *)
(** * The fare estimator as a transition system *)
(* ================================================================== *)

Module FareEstimator.

(** The debounce effect around one [BookingView]: its state, the clock, the
    timer of the effect's last run while it has neither fired nor been
    cleared (the instant it is due and the arguments it captured), the
    [estimateFare] calls not yet settled and all those made so far (oldest
    first, by their arguments).  [shownFor] is bookkeeping only: the
    arguments of the call whose answer [fareEstimate] holds. *)
Record Est := mkEst {
  ui : State;
  now : Z;
  timeoutId : option (Z * Inputs);
  inflight : list Inputs;
  calls : list Inputs;
  shownFor : option Inputs
}.

Definition initialEst : Est := mkEst initialState 0 None [] [] None.

Inductive Action :=
| Trigger (i : Inputs)
| Elapse (d : Z)
| TimerFires
| Settles (k : nat) (r : FareEstimate + Js.Error).

Definition when (b : bool) (w : Est) : option Est := if b then Some w else None.

(** The inputs take the values [i]. *)
Definition setInputs (i : Inputs) (s : State) : State :=
  setPassengerCount (in_pc i) (setVehicle (in_v i) (setDestination (in_d i)
    (setPickup (in_p i) s))).

(** The calls a list of commands makes. *)
Definition issued (cmds : list Cmd) : list Inputs :=
  flat_map (fun c => match c with
                     | EstimateFare p d v pc => [mkInputs p d v pc]
                     | _ => []
                     end) cmds.

(** One step.  [Trigger i]: the inputs change to [i]; the effect's cleanup
    clears the pending timer and its new run starts one of 500 ms with the
    new inputs.  [TimerFires]: the pending timer is due and runs its
    callback up to the [await].  [Settles k r]: the [k]-th awaited call
    settles with [r] and its callback finishes; nothing cancels an awaited
    call.  [Elapse d]: time passes, not beyond a due timer. *)
Definition step (a : Action) (w : Est) : option Est :=
  match a with
  | Trigger i =>
      Some (mkEst (setInputs i (ui w)) (now w) (Some (now w + 500, i))
              (inflight w) (calls w) (shownFor w))
  | Elapse d =>
      when ((0 <=? d) && match timeoutId w with
                         | Some (due, _) => now w + d <=? due
                         | None => true
                         end)
           (mkEst (ui w) (now w + d) (timeoutId w) (inflight w) (calls w) (shownFor w))
  | TimerFires =>
      match timeoutId w with
      | Some (due, i) =>
          when (due <=? now w)
               (let r := estimateTimerFires i (ui w) in
                mkEst (fst r) (now w) None (inflight w ++ issued (snd r))
                  (calls w ++ issued (snd r)) None)
      | None => None
      end
  | Settles k r =>
      match nth_error (inflight w) k with
      | Some i =>
          Some (mkEst (fst (estimateSettles r (ui w))) (now w) (timeoutId w)
                  (removeNth k (inflight w)) (calls w)
                  (match r with inl _ => Some i | inr _ => shownFor w end))
      | None => None
      end
  end.

Fixpoint run (acts : list Action) (w : Est) : option Est :=
  match acts with
  | [] => Some w
  | a :: rest =>
      match step a w with
      | Some w' => run rest w'
      | None => None
      end
  end.

Definition noTrigger (a : Action) : bool :=
  match a with Trigger _ => false | _ => true end.

(** Two triggers [A] then [B] less than 500 ms apart, nothing but time,
    timers and answers before, between and after them, starting from a
    state [w0] that satisfies [pre]: at most one call is made, and it is
    [B]'s; [B]'s timer replaced [A]'s; and once [B]'s timer has fired, an
    estimate in [fareEstimate] answers the call made for [B]. *)
Definition debounce_claim (pre : Est -> Prop) : Prop :=
  forall (w0 wa wb wb' w : Est) (A B : Inputs) (between after : list Action),
    pre w0 ->
    step (Trigger A) w0 = Some wa ->
    forallb noTrigger between = true -> run between wa = Some wb ->
    now wb < now wa + 500 ->
    step (Trigger B) wb = Some wb' ->
    forallb noTrigger after = true -> run after wb' = Some w ->
    (calls w = calls w0 \/ calls w = (calls w0 ++ [B])%list)
    /\ timeoutId wb' = Some (now wb + 500, B)
    /\ (timeoutId w = None ->
        forall e, fareEstimate (ui w) = Some e -> shownFor w = Some B).

(** No call is awaited. *)
Definition quiet (w : Est) : Prop := inflight w = [].

(** Before the instant [due], the timer for [i] is pending, no call is
    awaited and the calls made are [cs]. *)
Definition pendingUntil (due : Z) (i : Inputs) (cs : list Inputs) (w : Est) : Prop :=
  now w < due ->
  timeoutId w = Some (due, i) /\ inflight w = [] /\ calls w = cs.

(** Either the timer for [i] is pending, no call is awaited and the calls
    made are [cs]; or no timer is pending, at most the call for [i] was
    added to [cs] and is awaited, and an estimate that is set answers that
    call. *)
Definition lastTrigger (due : Z) (i : Inputs) (cs : list Inputs) (w : Est) : Prop :=
  (timeoutId w = Some (due, i) /\ inflight w = [] /\ calls w = cs)
  \/ (timeoutId w = None
      /\ (inflight w = [] \/ inflight w = [i])
      /\ (calls w = cs \/ calls w = (cs ++ [i])%list)
      /\ forall e, fareEstimate (ui w) = Some e -> shownFor w = Some i).

(** ** An answer that arrives late *)

Definition tripZ : Inputs := mkInputs "MG Road" "Bus Stand" CAR 1.
Definition tripA : Inputs := mkInputs "MG Road" "Bus Stand" AUTO 1.
Definition tripB : Inputs := mkInputs "MG Road" "Bus Stand" AUTO 2.

(** [tripZ] is typed, its timer fires and its call is made and stays
    awaited. *)
Definition awaitingZ : list Action := [Trigger tripZ; Elapse 500; TimerFires].

(** The state these steps lead to. *)
Definition stateAwaitingZ : Est :=
  match run awaitingZ initialEst with
  | Some w => w
  | None => initialEst
  end.

(** [B]'s call is made and answered with 95; then the call for [tripZ] is
    answered with 120. *)
Definition lateAnswer : list Action :=
  [Elapse 500; TimerFires;
   Settles 1 (inl (mkFareEstimate "95"));
   Settles 0 (inl (mkFareEstimate "120"))].

(** The quiet case: [B]'s call is made and answered. *)
Definition answered : list Action :=
  [Elapse 500; TimerFires; Settles 0 (inl (mkFareEstimate "95"))].

Definition anyState (w : Est) : Prop := True.

End FareEstimator.

(* ================================================================== *)
(** * Statements and examples used by the theorems *)
(* ================================================================== *)

(** Unfolding a run of the wrapper along the results the operation gives. *)
Ltac retry_run apiCall :=
  unfold GeminiService.withRetry, GeminiService.MAX_RETRIES; simpl;
  repeat match goal with
         | H : apiCall _ = _ |- _ => rewrite H; clear H; simpl
         | H : GeminiService.isRetriable _ = _ |- _ => rewrite H; clear H; simpl
         end.

(** ** The ride bundle *)

(** Everything of the ride bundle is at its cleared value. *)
Definition bundleCleared (s : State) : Prop :=
  rideDetails s = None
  /\ dynamicEta s = None
  /\ rideTrackingLink s = None
  /\ cancellationStep s = StepIdle
  /\ cancellationReason s = ""
  /\ driverPosition s = driverPosition initialState.

(** The transition to [PAID] and the reset to [IDLE] both leave the whole
    bundle cleared. *)
Definition bundle_destroyed_claim : Prop :=
  forall (c : Closure) (s : State),
    bundleCleared (fst (completeRideAction c s))
    /\ bundleCleared (fst (handleNewRide s)).

(** A confirmed ride, its driver somewhere on the map. *)
Definition confirmedRide : State :=
  setDriverPosition (mkDriverPosition "42.5%" "57%")
    (setDynamicEta (Some 8)
       (setRideTrackingLink
          (Some "https://chaloride.example/track?rideId=1762140000000-k3x9q2a")
          (setRideStatus CONFIRMED
             (setRideDetails (Some Orchestrator.offer8)
                (setDestination "Bus Stand" (setPickup "MG Road" initialState)))))).

(** The same ride with the cancellation dialog at its second step. *)
Definition askingReason : State := setCancellationStep StepReason confirmedRide.

(** A commit without a reason changes nothing and reminds the user; a
    commit with one of the listed reasons shows the notification, sets
    [IDLE] and leaves the whole bundle cleared. *)
Definition cancellation_resets_bundle_claim : Prop :=
  forall s : State,
    (cancellationStep s = StepReason -> cancellationReason s = "" ->
     handleCancelRide s = (s, [ShowToast "Please select a reason."]))
    /\ (In (cancellationReason s) CANCELLATION_REASONS ->
        In (ShowToast "Your ride has been cancelled.") (snd (handleCancelRide s))
        /\ rideStatus (fst (handleCancelRide s)) = IDLE
        /\ bundleCleared (fst (handleCancelRide s))).

(** The dialog of the confirmed ride with "Changed my mind" selected. *)
Definition reasonChosen : State := setCancellationReason "Changed my mind" askingReason.

(** A PhonePe wallet among the payment methods. *)
Definition phonePe : PaymentMethod := mkPaymentMethod "phonepe" PHONE_PE None None.

Definition isOnRideComplete (c : Cmd) : bool :=
  match c with OnRideComplete _ => true | _ => false end.

(** ** The ETA countdown *)

(** [dynamicEta] after [n] firings of the interval, and the number of toasts
    these firings showed. *)
Definition etaAfter (n : nat) (s : State) : option Z := dynamicEta (fst (etaTicks n s)).
Definition notifications (n : nat) (s : State) : nat := toastCount (snd (etaTicks n s)).

Definition notBelowZero (e : option Z) : Prop := forall x, e = Some x -> 0 <= x.
Definition notIncreased (before after : option Z) : Prop :=
  forall x y, before = Some x -> after = Some y -> y <= x.

(** For a ride whose parsed ETA satisfies [pre], from the state the
    tracking effect leaves and at every firing of the interval: the value
    does not increase, is never below 0, at most one notification has been
    shown, and the firing shows one exactly when it brings the value to 2;
    and for a ride whose parsed ETA satisfies [notified], exactly one
    notification has been shown when the countdown has reached 0. *)
Definition eta_countdown_claim (pre notified : option Z -> Prop) : Prop :=
  forall (rd : RideDetails) (s : State) (n : nat),
    dynamicEta s = initialEta rd ->
    pre (initialEta rd) ->
    notIncreased (etaAfter n s) (etaAfter (S n) s)
    /\ notBelowZero (etaAfter n s)
    /\ (notifications n s <= 1)%nat
    /\ (etaAfter (S n) s = Some 2 -> notifications (S n) s = S (notifications n s))
    /\ (etaAfter (S n) s <> Some 2 -> notifications (S n) s = notifications n s)
    /\ (notified (initialEta rd) -> etaAfter n s = Some 0 -> notifications n s = 1%nat).

Definition anyEta (e : option Z) : Prop := True.

(** The parsed ETA is 3 or more. *)
Definition threeOrMore (e : option Z) : Prop := exists v, e = Some v /\ 3 <= v.

(** The offer of the examples with another ETA text. *)
Definition offerWithEta (text : string) : RideDetails :=
  mkRideDetails "Ravi Kumar" "https://picsum.photos/seed/ravi/200/200"
    "5-star driver with 4 years of experience." "Maruti Suzuki Swift" "KA 38 AB 1234"
    text "120".

(** The state in which the search of the examples resolves with [rd]. *)
Definition searchingState : State :=
  setRideStatus SEARCHING (setDestination "Bus Stand" (setPickup "MG Road" initialState)).

(** The state when the ride [rd] has just been confirmed: the search
    resolved and the tracking effect ran. *)
Definition justConfirmed (rd : RideDetails) : State :=
  fst ((handleFindRide_resolved "MG Road" "Bus Stand" rd Orchestrator.browser
        ;; trackingEffect) searchingState).

(* ================================================================== *)
(** * More of the sources *)
(* ================================================================== *)

(** ** JavaScript: [trim] *)

Module JsText.

(** [s.trimEnd()]: the text up to the point from where only white space
    follows. *)
Fixpoint trimEnd (s : string) : string :=
  match s with
  | EmptyString => EmptyString
  | String c rest =>
      if Js.isEmpty (Js.trimStart s) then EmptyString else String c (trimEnd rest)
  end.

(** [s.trim()]. *)
Definition trim (s : string) : string := trimEnd (Js.trimStart s).

(** [s] is made of white space only (so also when it is empty). *)
Definition isBlank (s : string) : Prop :=
  exists cps : list N,
    (forall cp, In cp cps -> In cp Js.whiteSpaceCodePoints) /\ s = Js.text cps.

(** The texts of a list one after the other, as [+=] builds them. *)
Definition joined (parts : list string) : string := fold_right String.append "" parts.

(** [TypeError] of reading a property of [undefined] (the message is V8's). *)
Definition typeErrorOfUndefined (property : string) : Js.Error :=
  Js.mkError "TypeError"
    ("Cannot read properties of undefined (reading '" ++ property ++ "')").

End JsText.

(** ** services/geminiService.ts: the back-off of a run *)

(** The durations slept in a trace, in order. *)
Definition sleptIn (log : list GeminiService.Event) : list Z :=
  flat_map (fun ev => match ev with GeminiService.Slept ms => [ms] | _ => [] end) log.

Definition totalSlept (log : list GeminiService.Event) : Z :=
  fold_right Z.add 0 (sleptIn log).

(** A result of the operation as an outcome of the wrapper. *)
Definition asOutcome {T : Type} (r : T + Js.Error) : GeminiService.Outcome T :=
  match r with
  | inl v => GeminiService.Returned v
  | inr e => GeminiService.Threw e
  end.

(** ** services/geminiService.ts: the calls built on [withRetry] *)

Module GeminiCalls.

Section Calls.
(** [W]: the remote service.  [J]: what [JSON.parse] gives; the sources
    cast it to the type they expect without looking at it, so it stays as
    it is here.  [jsonParse] is [JSON.parse], [None] when it throws;
    [emptyArray] is [[]].  The operation wrapped by [withRetry] is
    [() => ai.models.generateContent({...})]; what counts of a response is
    its [text], which may be [undefined]. *)
Context {W J : Type}.
Variable jitter : nat -> Z.
Variable jsonParse : string -> option J.
Variable emptyArray : J.

Definition GenerateContent := @GeminiService.ApiCall (option string) W.

Definition Result := (GeminiService.Outcome J * W * list GeminiService.Event)%type.

(** What each function does with the response once [withRetry] returned
    it: [generateRideDetails] trims outside its [try], the other two
    inside. *)
Definition rideDetailsOf (text : option string) : GeminiService.Outcome J :=
  match text with
  | None => GeminiService.Threw (JsText.typeErrorOfUndefined "trim")
  | Some t =>
      match jsonParse (JsText.trim t) with
      | Some parsedJson => GeminiService.Returned parsedJson
      | None =>
          GeminiService.Threw (Js.newError "Could not get ride details from the server.")
      end
  end.

Definition fareEstimateOf (text : option string) : GeminiService.Outcome J :=
  match text with
  | None => GeminiService.Threw (Js.newError "Could not get fare estimate.")
  | Some t =>
      match jsonParse (JsText.trim t) with
      | Some parsedJson => GeminiService.Returned parsedJson
      | None => GeminiService.Threw (Js.newError "Could not get fare estimate.")
      end
  end.

Definition suggestionsOf (text : option string) : GeminiService.Outcome J :=
  match text with
  | None => GeminiService.Returned emptyArray
  | Some t =>
      match jsonParse (JsText.trim t) with
      | Some parsedJson => GeminiService.Returned parsedJson
      | None => GeminiService.Returned emptyArray
      end
  end.

(** [await withRetry(...)], then the function's own handling; an error of
    [withRetry] is not caught. *)
Definition afterRetry (handle : option string -> GeminiService.Outcome J)
           (generateContent : GenerateContent) (w : W) : Result :=
  let r := GeminiService.withRetry jitter generateContent w in
  (match GeminiService.outcomeOf r with
   | GeminiService.Returned text => handle text
   | GeminiService.Threw e => GeminiService.Threw e
   end,
   GeminiService.worldOf r, GeminiService.logOf r).

Definition generateRideDetails : GenerateContent -> W -> Result := afterRetry rideDetailsOf.
Definition estimateFare : GenerateContent -> W -> Result := afterRetry fareEstimateOf.
Definition getPersonalizedSuggestions : GenerateContent -> W -> Result :=
  afterRetry suggestionsOf.

(** ** BookingView.tsx: the suggestion prefetch *)

(** The two [useState] variables the prefetch writes. *)
Record SuggestionState := mkSuggestionState {
  suggestions : J;
  isLoadingSuggestions : bool
}.

(** [fetchSuggestions] of the effect on [rideStatus], [userName],
    [rideHistory], from its start to the end of its [finally]: the state
    after it, the service after it and the trace of the calls. *)
Definition fetchSuggestions (status : RideStatus) (generateContent : GenerateContent)
           (w : W) (st : SuggestionState)
  : SuggestionState * W * list GeminiService.Event :=
  match status with
  | IDLE =>
      let r := getPersonalizedSuggestions generateContent w in
      (match GeminiService.outcomeOf r with
       | GeminiService.Returned fetchedSuggestions => mkSuggestionState fetchedSuggestions false
       | GeminiService.Threw _ => mkSuggestionState (suggestions st) false
       end,
       GeminiService.worldOf r, GeminiService.logOf r)
  | _ => (st, w, [])
  end.

End Calls.

End GeminiCalls.

(** ** App.tsx: the ride history *)

Module App.

(** [rideHistory], and the value stored under ['chalorideHistory'] in
    [localStorage] ([None]: nothing stored).  The stored text is the
    [JSON.stringify] of a history and is only read back with [JSON.parse];
    it is kept here as the history it encodes. *)
Record HistoryState := mkHistoryState {
  rideHistory : list CompletedRide;
  stored : option (list CompletedRide)
}.

(** [handleRideComplete(ride)]; [isoNow] is [new Date().toISOString()] and
    [localeNow] the [toLocaleString] of the same moment. *)
Definition handleRideComplete (ride : RidePayload) (isoNow localeNow : string)
           (h : HistoryState) : HistoryState :=
  let newCompletedRide :=
    mkCompletedRide (ride_details ride) isoNow (ride_pickup ride) (ride_destination ride)
      localeNow None in
  let updatedHistory := newCompletedRide :: rideHistory h in
  mkHistoryState updatedHistory (Some updatedHistory).

(** [{ ...ride, rating }]. *)
Definition withRating (rating : Z) (ride : CompletedRide) : CompletedRide :=
  mkCompletedRide (cr_details ride) (cr_id ride) (cr_pickup ride) (cr_destination ride)
    (cr_date ride) (Some rating).

Definition handleRateRide (rideId : string) (rating : Z) (h : HistoryState) : HistoryState :=
  let updatedHistory :=
    map (fun ride => if String.eqb (cr_id ride) rideId then withRating rating ride else ride)
        (rideHistory h) in
  mkHistoryState updatedHistory (Some updatedHistory).

(** A start of the application with [s] in [localStorage]: [useState([])],
    then the effect that reads the stored history when there is one. *)
Definition mount (s : option (list CompletedRide)) : HistoryState :=
  mkHistoryState (match s with Some storedHistory => storedHistory | None => [] end) s.

Inductive HistoryOp :=
| Complete (ride : RidePayload) (isoNow localeNow : string)
| Rate (rideId : string) (rating : Z).

Definition apply (h : HistoryState) (op : HistoryOp) : HistoryState :=
  match op with
  | Complete ride isoNow localeNow => handleRideComplete ride isoNow localeNow h
  | Rate rideId rating => handleRateRide rideId rating h
  end.

Definition applyAll (ops : list HistoryOp) (h : HistoryState) : HistoryState :=
  fold_left apply ops h.

(** The ride that a [Complete] adds. *)
Definition completedBy (ride : RidePayload) (isoNow localeNow : string) : CompletedRide :=
  mkCompletedRide (ride_details ride) isoNow (ride_pickup ride) (ride_destination ride)
    localeNow None.

Definition sampleRide : RidePayload :=
  mkRidePayload "MG Road" "Bus Stand" Orchestrator.offer8.

End App.

(** ** components/ChatBotView.tsx: sending a message *)

Module ChatBotView.

Inductive Sender := USER | GEMINI.

Record ChatMessage := mkChatMessage { sender : Sender; text : string }.

Record ChatState := mkChatState {
  messages : list ChatMessage;
  inputValue : string;
  isLoading : bool
}.

Definition greeting : ChatMessage :=
  mkChatMessage GEMINI
    "Hello! How can I help you with Chaloride or your trip in Basavakalyan today?".

Definition apology : string :=
  "Sorry, I'm having trouble connecting. Please try again later.".

(** The state after the mount effect. *)
Definition mounted : ChatState := mkChatState [greeting] "" false.

(** The updater [prev => { const u = [...prev]; u[u.length - 1].text = t;
    return u; }]; [None] is the [TypeError] it throws on an empty list. *)
Fixpoint setLastText (t : string) (prev : list ChatMessage) : option (list ChatMessage) :=
  match prev with
  | [] => None
  | m :: rest =>
      match rest with
      | [] => Some [mkChatMessage (sender m) t]
      | _ :: _ => option_map (cons m) (setLastText t rest)
      end
  end.

(** What the awaited stream does: it yields the texts [chunks] in order and
    then ends, or throws when [fails] (also when [sendChatMessageStream]
    itself throws: no chunk and [fails]). *)
Record Stream := mkStream { chunks : list string; fails : bool }.

(** The [for await] loop: [currentText] grows by each chunk and is written
    into the last message. *)
Fixpoint streamInto (cs : list string) (currentText : string) (msgs : list ChatMessage)
  : option (list ChatMessage) :=
  match cs with
  | [] => Some msgs
  | c :: rest =>
      match setLastText (currentText ++ c) msgs with
      | Some msgs' => streamInto rest (currentText ++ c) msgs'
      | None => None
      end
  end.

(** [handleSendMessage] from the submit to the end of its [finally], for a
    view whose [chatSessionRef.current] is set when [session]; the result
    is the state after it and the text handed to [sendChatMessageStream],
    if any; [None] when an updater threw. *)
Definition handleSendMessage (session : bool) (stream : Stream) (st : ChatState)
  : option (ChatState * option string) :=
  let trimmedInput := JsText.trim (inputValue st) in
  if Js.isEmpty trimmedInput || isLoading st then Some (st, None)
  else
    let newMessages :=
      (messages st ++ [mkChatMessage USER trimmedInput; mkChatMessage GEMINI ""])%list in
    if session then
      match streamInto (chunks stream) "" newMessages with
      | Some streamed =>
          if fails stream
          then option_map (fun final => (mkChatState final "" false, Some trimmedInput))
                          (setLastText apology streamed)
          else Some (mkChatState streamed "" false, Some trimmedInput)
      | None => None
      end
    else Some (mkChatState newMessages "" false, None).

(** The text of the answer bubble after a send. *)
Definition answerOf (session : bool) (stream : Stream) : string :=
  if session
  then if fails stream then apology else JsText.joined (chunks stream)
  else "".

End ChatBotView.

(** ** BookingView.tsx: the message shown while searching *)

Module LoadingMessage.

Definition messages : list string :=
  ["Contacting nearby drivers...";
   "Calculating the fastest route...";
   "Checking traffic conditions...";
   "Finalizing your trip details..."].

(** [messageIndex] of the effect and the [loadingMessage] of the view;
    [None] stands for [undefined], the element of an index out of range. *)
Record Rotator := mkRotator { messageIndex : nat; loadingMessage : option string }.

(** The effect's start when the status becomes [SEARCHING]. *)
Definition start : Rotator := mkRotator 0 (Some "Finding your ride...").

(** One firing of the interval. *)
Definition tick (r : Rotator) : Rotator :=
  let i := ((messageIndex r + 1) mod List.length messages)%nat in
  mkRotator i (nth_error messages i).

Fixpoint ticks (n : nat) (r : Rotator) : Rotator :=
  match n with
  | O => r
  | S n' => tick (ticks n' r)
  end.

End LoadingMessage.

(** ** BookingView.tsx: what the handlers start and hand over *)

(** The timers a list of commands starts at the instant [clk], and the
    rides it hands to [onRideComplete]. *)
Definition timersStarted (clk : Z) (cmds : list Cmd) : list (Z * Callback) :=
  flat_map (fun c => match c with SetTimeout cb ms => [(clk + ms, cb)] | _ => [] end) cmds.

Definition ridesHanded (cmds : list Cmd) : list RidePayload :=
  flat_map (fun c => match c with OnRideComplete r => [r] | _ => [] end) cmds.

(** The callback holds an offer. *)
Definition hasOffer (cb : Callback) : bool :=
  match cb with
  | CompleteRide c => isSome (cl_rideDetails c)
  | GPaySuccess c => isSome (cl_rideDetails c)
  end.

(** The values a consistent view has: a status of [CONFIRMED] comes with a
    tracking link, the passenger count is between 1 and the vehicle's
    capacity, and the cancellation reason is empty or one of the list. *)
Definition consistentUi (s : State) : Prop :=
  (rideStatus s = CONFIRMED -> isSome (rideTrackingLink s) = true)
  /\ 1 <= passengerCount s <= maxPassengers (vehicle s)
  /\ (cancellationReason s = "" \/ In (cancellationReason s) CANCELLATION_REASONS).

(** A consistent view, and every pending payment callback holds an offer. *)
Definition consistent (w : Orchestrator.World) : Prop :=
  consistentUi (Orchestrator.ui w)
  /\ forallb (fun t => hasOffer (snd t)) (Orchestrator.timers w) = true.

(** Running the handlers of the view on a state given by its fields. *)
Ltac run_handlers :=
  cbv beta iota zeta delta
    [set emit skip andThen fst snd
     handleFindRide handleFindRide_resolved handleFindRide_rejected completeRideAction
     handlePayment handleGPaySuccess handleGPayCancel runCallback handleNewRide
     handleCancelRide trackingEffect etaTick etaUpdater handleIncrement handleDecrement clampEffect
     GooglePayModal_handlePay closureOf timersStarted ridesHanded flat_map hasOffer
     cl_rideDetails cl_pickup cl_destination
     setPickup setDestination setVehicle setPassengerCount setRideStatus setRideDetails
     setError setPayingMethodId setIsShowingHistory setSelectedRide setIsMapVisible
     setDriverPosition setCancellationStep setCancellationReason setFareEstimate
     setIsEstimating setDynamicEta setRideTrackingLink setIsShareModalOpen
     setIsGPayModalOpen
     pickup destination vehicle passengerCount rideStatus rideDetails error payingMethodId
     isShowingHistory selectedRide isMapVisible driverPosition cancellationStep
     cancellationReason fareEstimate isEstimating dynamicEta rideTrackingLink
     isShareModalOpen isGPayModalOpen
     consistentUi Orchestrator.sheetClickable Orchestrator.dialogClickable
     Orchestrator.cardShown Orchestrator.gpayModalShown Orchestrator.cancelDialogShown
     Orchestrator.formShown Orchestrator.resultShown Orchestrator.isPaying trackingActive]
    in *;
  cbn [app] in *.

(** Case analysis on the innermost test the goal still branches on. *)
Ltac split_tests :=
  repeat (match goal with
          | |- context [match ?x with _ => _ end] =>
              let T := type of x in
              lazymatch T with
              | bool => idtac
              | option _ => idtac
              | RideStatus => idtac
              | Vehicle => idtac
              | Callback => idtac
              | Closure => idtac
              end;
              lazymatch x with
              | context [match _ with _ => _ end] => fail
              | _ => destruct x eqn:?
              end
          end; cbv beta iota; cbn [app] in *).

(** ** The fare estimator from its first render *)

Definition estReachable (w : FareEstimator.Est) : Prop :=
  exists acts, FareEstimator.run acts FareEstimator.initialEst = Some w.

(** Both texts are longer than two UTF-16 code units: [p.length > 2 &&
    d.length > 2]. *)
Definition longEnough (i : Inputs) : bool :=
  (Z.of_nat (Js.length (in_p i)) >? 2) && (Z.of_nat (Js.length (in_d i)) >? 2).

(** ** Sample runs *)

(** A ride is booked and its offer arrives. *)
Definition bookRide : list Orchestrator.Action :=
  [Orchestrator.TypePickup "MG Road"; Orchestrator.TypeDestination "Bus Stand";
   Orchestrator.ClickFindRide;
   Orchestrator.SearchSettles 0 (inl Orchestrator.offer8) Orchestrator.browser].

(** The card is chosen and its two seconds pass. *)
Definition bookAndPay : list Orchestrator.Action :=
  (bookRide ++ [Orchestrator.ClickPay Orchestrator.visa; Orchestrator.Elapse 2000])%list.

(** A pickup of two Devanagari letters (six bytes, two code units) is
    typed and the timer fires. *)
Definition typeTwoLetters : list FareEstimator.Action :=
  [FareEstimator.Trigger (mkInputs (Js.text [2328; 2352]%N) "Bus Stand" AUTO 1);
   FareEstimator.Elapse 500; FareEstimator.TimerFires].

(** Two texts are typed, the timer fires and its call is awaited. *)
Definition typeAndWait : list FareEstimator.Action :=
  [FareEstimator.Trigger (mkInputs "MG Road" "Bus Stand" AUTO 1);
   FareEstimator.Elapse 500; FareEstimator.TimerFires].

(** Two methods are chosen one after the other, and both timers fire. *)
Definition payTwice : list Orchestrator.Action :=
  (bookRide ++ [Orchestrator.ClickPay Orchestrator.visa; Orchestrator.ClickPay Orchestrator.cash;
                Orchestrator.Elapse 500; Orchestrator.TimerFires 1;
                Orchestrator.Elapse 1500; Orchestrator.TimerFires 0])%list.

(** Two calls are awaited and the first of them is answered. *)
Definition twoCallsOneAnswer : list FareEstimator.Action :=
  (typeAndWait ++ [FareEstimator.Trigger (mkInputs "MG Road" "Fort" AUTO 1);
                   FareEstimator.Elapse 500; FareEstimator.TimerFires;
                   FareEstimator.Settles 0 (inl (mkFareEstimate "80-100"))])%list.

(* ================================================================== *)
(** * Theorems: the retrying wrapper *)
(* ================================================================== *)

Import GeminiService.

Example includes_examples :
  Js.includes "overloaded" "Error: 503 The model is overloaded." = true
  /\ Js.includes "UNAVAILABLE" "Error: 503 Service unavailable" = false
  /\ Js.includes "" "" = true.
Proof. repeat split. Qed.

Example isRetriable_is_case_sensitive :
  isRetriable (Js.newError "503 UNAVAILABLE") = true
  /\ isRetriable (Js.newError "503 Service unavailable") = false
  /\ spec_transient (Js.newError "503 Service unavailable") = true
  /\ spec_transient (Js.newError "503 UNAVAILABLE") = false.
Proof. repeat split. Qed.

(** C1 (as amended): with "transient" read as the code reads it - the
    error's string form contains the exact substring "overloaded" or
    "UNAVAILABLE" - an operation that fails transiently twice and then
    succeeds is called three times and its result is returned; any other
    failure is rethrown after one call; three transient failures surface
    the third error after three calls. *)
Theorem withRetry_policy :
  forall (T W : Type) (jitter : nat -> Z), @retry_policy T W jitter isRetriable.
Proof.
  intros T W jitter apiCall w0.
  split; [| split].
  - intros e1 e2 v w1 w2 w3 H1 R1 H2 R2 H3. retry_run apiCall. repeat split.
  - intros e w1 H1 R1. retry_run apiCall. repeat split.
  - intros e1 e2 e3 w1 w2 w3 H1 R1 H2 R2 H3 R3. retry_run apiCall. repeat split.
Qed.

Lemma withRetry_policy_witness :
  outcomeOf (withRetry noJitter (scripted string) flaky503) = Returned "ok"
  /\ worldOf (withRetry noJitter (scripted string) flaky503) = []
  /\ attempts (logOf (withRetry noJitter (scripted string) flaky503)) = 3%nat.
Proof.
  destruct (withRetry_policy string _ noJitter (scripted string) flaky503) as [H _].
  eapply H; reflexivity.
Defined.

(** C1 (as stated) fails: an operation that twice fails with
    "503 Service unavailable" and would succeed at its third call is called
    once, and the wrapper rethrows that first failure. *)
Lemma withRetry_lowercase_unavailable_not_retried :
  ~ (forall (T W : Type) (jitter : nat -> Z), @retry_policy T W jitter spec_transient).
Proof.
  intro H.
  pose (e := Js.newError "503 Service unavailable").
  destruct (H string _ noJitter (scripted string) [inr e; inr e; inl "ok"]) as [H3 _].
  specialize (H3 e e "ok" _ _ _ eq_refl eq_refl eq_refl eq_refl eq_refl).
  destruct H3 as [Hres _]. discriminate Hres.
Qed.

(** The back-off the wrapper sleeps between the attempts of a run that
    succeeds at the third: 1000 ms, then 2000 ms, each plus its jitter. *)
Example withRetry_backoff :
  logOf (withRetry noJitter (scripted string) flaky503)
  = [Invoked 0; Warned 0; Slept 1000; Invoked 1; Warned 1; Slept 2000; Invoked 2].
Proof. reflexivity. Qed.

(* ================================================================== *)
(** * Theorems: handlers of the booking view *)
(* ================================================================== *)

(** C8: after a vehicle change the vehicle is the selected one and the
    passenger count is the smaller of the count before and the capacity of
    that vehicle (1 for a bike, 4 for an auto or a car): never above the
    capacity, unchanged when it fitted; no error is set. *)
Theorem vehicle_change_clamps_passengers :
  forall (s : State) (v : Vehicle),
    vehicle (changeVehicle v s) = v
    /\ passengerCount (changeVehicle v s) <= maxPassengers v
    /\ passengerCount (changeVehicle v s) = Z.min (passengerCount s) (maxPassengers v)
    /\ error (changeVehicle v s) = error s
    /\ maxPassengers BIKE = 1 /\ maxPassengers AUTO = 4 /\ maxPassengers CAR = 4.
Proof.
  intros s v. unfold changeVehicle, clampEffect.
  replace (vehicle (setVehicle v s)) with v by reflexivity.
  replace (passengerCount (setVehicle v s)) with (passengerCount s) by reflexivity.
  destruct (passengerCount s >? maxPassengers v) eqn:E; simpl.
  - apply Z.gtb_lt in E. repeat split; lia.
  - assert (passengerCount s <= maxPassengers v).
    { rewrite Z.gtb_ltb in E. apply Z.ltb_ge in E. exact E. }
    repeat split; lia.
Qed.

Example four_passengers_then_bike :
  passengerCount (changeVehicle BIKE (setPassengerCount 4 initialState)) = 1.
Proof. reflexivity. Qed.



(** C5 (as amended): the transition to [PAID] clears the dynamic ETA (with
    the payment indicator and the payment surface) and keeps the ride
    offer, the tracking link, the cancellation state and the driver
    position; the reset to [IDLE] clears the ride offer, the dynamic ETA,
    the tracking link and the cancellation state in one handler that issues
    no command, and leaves the driver position where it was. *)
Theorem ride_bundle_after_paid_and_reset :
  forall (c : Closure) (s : State),
    (rideStatus (fst (completeRideAction c s)) = PAID
     /\ dynamicEta (fst (completeRideAction c s)) = None
     /\ rideDetails (fst (completeRideAction c s)) = rideDetails s
     /\ rideTrackingLink (fst (completeRideAction c s)) = rideTrackingLink s
     /\ cancellationStep (fst (completeRideAction c s)) = cancellationStep s
     /\ cancellationReason (fst (completeRideAction c s)) = cancellationReason s
     /\ driverPosition (fst (completeRideAction c s)) = driverPosition s)
    /\ (rideStatus (fst (handleNewRide s)) = IDLE
        /\ rideDetails (fst (handleNewRide s)) = None
        /\ dynamicEta (fst (handleNewRide s)) = None
        /\ rideTrackingLink (fst (handleNewRide s)) = None
        /\ cancellationStep (fst (handleNewRide s)) = StepIdle
        /\ cancellationReason (fst (handleNewRide s)) = ""
        /\ driverPosition (fst (handleNewRide s)) = driverPosition s
        /\ snd (handleNewRide s) = []).
Proof.
  intros c s. split.
  - destruct c as [[rd|] p d]; repeat split.
  - repeat split.
Qed.

(** C5 (as stated) fails: paying the confirmed ride of the example leaves
    its offer, its tracking link and its driver position in place. *)
Lemma paid_keeps_the_ride_offer : ~ bundle_destroyed_claim.
Proof.
  intro H.
  destruct (H (closureOf confirmedRide) confirmedRide) as [[Hoffer _] _].
  discriminate Hoffer.
Qed.

Example reset_keeps_the_driver_position :
  driverPosition (fst (handleNewRide confirmedRide)) = mkDriverPosition "42.5%" "57%"
  /\ driverPosition initialState = mkDriverPosition "40%" "60%".
Proof. split; reflexivity. Qed.

Lemma In_CANCELLATION_REASONS_not_empty :
  forall r, In r CANCELLATION_REASONS -> Js.isEmpty r = false.
Proof.
  intros r H. unfold CANCELLATION_REASONS in H. simpl in H.
  repeat (destruct H as [H | H]; [subst r; reflexivity |]).
  contradiction.
Qed.

(** C6 (as amended): committing at the reason step with no reason selected
    changes nothing and shows the reminder; committing with one of the five
    listed reasons selected shows the "cancelled" notification and does
    exactly what starting a new ride does: the status is [IDLE], the ride
    offer, dynamic ETA, tracking link and cancellation state are cleared,
    and the driver position is left where it was. *)
Theorem cancellation_commit :
  forall s : State,
    (cancellationStep s = StepReason -> cancellationReason s = "" ->
     handleCancelRide s = (s, [ShowToast "Please select a reason."]))
    /\ (In (cancellationReason s) CANCELLATION_REASONS ->
        handleCancelRide s
        = (fst (handleNewRide s),
           [ShowToast "Your ride has been cancelled.";
            ConsoleLog ("Ride cancelled. Reason: " ++ cancellationReason s)])
        /\ rideStatus (fst (handleCancelRide s)) = IDLE
        /\ rideDetails (fst (handleCancelRide s)) = None
        /\ dynamicEta (fst (handleCancelRide s)) = None
        /\ rideTrackingLink (fst (handleCancelRide s)) = None
        /\ cancellationStep (fst (handleCancelRide s)) = StepIdle
        /\ cancellationReason (fst (handleCancelRide s)) = ""
        /\ driverPosition (fst (handleCancelRide s)) = driverPosition s)
    /\ List.length CANCELLATION_REASONS = 5%nat.
Proof.
  intros s. split; [| split].
  - intros Hstep Hreason. unfold handleCancelRide.
    rewrite Hstep, Hreason. reflexivity.
  - intros Hin. apply In_CANCELLATION_REASONS_not_empty in Hin.
    assert (E : handleCancelRide s
                = (fst (handleNewRide s),
                   [ShowToast "Your ride has been cancelled.";
                    ConsoleLog ("Ride cancelled. Reason: " ++ cancellationReason s)])).
    { unfold handleCancelRide. rewrite Hin, andb_false_r. reflexivity. }
    rewrite E. repeat split.
  - reflexivity.
Qed.

Lemma cancellation_commit_witness :
  handleCancelRide askingReason = (askingReason, [ShowToast "Please select a reason."])
  /\ rideStatus (fst (handleCancelRide reasonChosen)) = IDLE
  /\ driverPosition (fst (handleCancelRide reasonChosen)) = driverPosition reasonChosen.
Proof.
  split; [| split].
  - apply (cancellation_commit askingReason); reflexivity.
  - apply (cancellation_commit reasonChosen). simpl. right. left. reflexivity.
  - apply (cancellation_commit reasonChosen). simpl. right. left. reflexivity.
Defined.

(** C6 (as stated) fails: the committed cancellation of the example leaves
    the driver where the ride had moved it, so the bundle is not fully
    reset. *)
Lemma cancellation_keeps_the_driver_position : ~ cancellation_resets_bundle_claim.
Proof.
  intro H.
  destruct (H reasonChosen) as [_ Hcommit].
  destruct Hcommit as [_ [_ Hcleared]]; [simpl; right; left; reflexivity |].
  destruct Hcleared as [_ [_ [_ [_ [_ Hdriver]]]]].
  discriminate Hdriver.
Qed.

(** What the payment handlers do, by the type of the method: with a ride
    offer on screen, choosing cash or a card marks the method as paying and
    starts a timer of 500 ms or 2000 ms, and [PHONE_PE] goes the way of the
    card; choosing Google Pay marks it and opens the modal, whose pay
    button starts a timer of 2500 ms; when either timer's callback runs, in
    whatever state, that run hands one record - the offer with the pickup
    and destination of the moment of choosing - to [onRideComplete],
    clears the payment indicator and the dynamic ETA, closes the modal and
    sets [PAID]; cancelling the modal clears the indicator, closes the
    modal and leaves the status alone. *)
Theorem payment_completion :
  forall (s : State) (m : PaymentMethod) (rd : RideDetails),
    rideDetails s = Some rd ->
    (pm_type m = CASH ->
     handlePayment m s
     = (setPayingMethodId (Some (pm_id m)) s, [SetTimeout (CompleteRide (closureOf s)) 500]))
    /\ (pm_type m = CARD ->
        handlePayment m s
        = (setPayingMethodId (Some (pm_id m)) s, [SetTimeout (CompleteRide (closureOf s)) 2000]))
    /\ (pm_type m = PHONE_PE ->
        handlePayment m s
        = (setPayingMethodId (Some (pm_id m)) s, [SetTimeout (CompleteRide (closureOf s)) 2000]))
    /\ (pm_type m = GOOGLE_PAY ->
        handlePayment m s
        = (setIsGPayModalOpen true (setPayingMethodId (Some (pm_id m)) s), [])
        /\ GooglePayModal_handlePay (fst (handlePayment m s))
           = (true, [SetTimeout (GPaySuccess (closureOf s)) 2500]))
    /\ (forall (cb : Callback) (s' : State),
        cb = CompleteRide (closureOf s) \/ cb = GPaySuccess (closureOf s) ->
        filter isOnRideComplete (snd (runCallback cb s'))
        = [OnRideComplete (mkRidePayload (pickup s) (destination s) rd)]
        /\ payingMethodId (fst (runCallback cb s')) = None
        /\ dynamicEta (fst (runCallback cb s')) = None
        /\ isGPayModalOpen (fst (runCallback cb s')) = false
        /\ rideStatus (fst (runCallback cb s')) = PAID)
    /\ (payingMethodId (fst (handleGPayCancel s)) = None
        /\ isGPayModalOpen (fst (handleGPayCancel s)) = false
        /\ rideStatus (fst (handleGPayCancel s)) = rideStatus s
        /\ snd (handleGPayCancel s) = []).
Proof.
  intros s m rd Hrd. split; [| split; [| split; [| split; [| split]]]].
  - intros Ht. unfold handlePayment. rewrite Ht. reflexivity.
  - intros Ht. unfold handlePayment. rewrite Ht. reflexivity.
  - intros Ht. unfold handlePayment. rewrite Ht. reflexivity.
  - intros Ht. unfold handlePayment. rewrite Ht. split; reflexivity.
  - intros cb s' [-> | ->]; simpl; unfold handleGPaySuccess, completeRideAction;
      simpl; rewrite Hrd; repeat split.
  - repeat split.
Qed.

Lemma payment_completion_witness :
  snd (handlePayment Orchestrator.cash confirmedRide)
  = [SetTimeout (CompleteRide (closureOf confirmedRide)) 500]
  /\ rideStatus (fst (runCallback (CompleteRide (closureOf confirmedRide)) confirmedRide))
     = PAID.
Proof.
  destruct (payment_completion confirmedRide Orchestrator.cash Orchestrator.offer8 eq_refl)
    as [Hcash [_ [_ [_ [Hdone _]]]]].
  split.
  - rewrite Hcash; reflexivity.
  - apply Hdone. left. reflexivity.
Defined.

(** C7 (the code at the failing inputs): the PhonePe wallet of the example
    is paid like a card - choosing it starts the timer of 2000 ms at once
    and opens no confirmation - and choosing the card and then cash within
    the card's two seconds hands the one ride to [onRideComplete] twice. *)
Theorem phonepe_pays_without_confirmation :
  handlePayment phonePe confirmedRide
  = (setPayingMethodId (Some "phonepe") confirmedRide,
     [SetTimeout (CompleteRide (closureOf confirmedRide)) 2000])
  /\ isGPayModalOpen (fst (handlePayment phonePe confirmedRide)) = false
  /\ option_map Orchestrator.completed (Orchestrator.run payTwice Orchestrator.initialWorld)
     = Some [mkRidePayload "MG Road" "Bus Stand" Orchestrator.offer8;
             mkRidePayload "MG Road" "Bus Stand" Orchestrator.offer8].
Proof. split; [| split]; vm_compute; reflexivity. Qed.

(* ================================================================== *)
(** * Theorems: the ETA countdown *)
(* ================================================================== *)

Lemma etaUpdater_cases :
  forall e : option Z,
    (exists p, e = Some p /\ 0 < p
               /\ etaUpdater e
                  = (Some (p - 1),
                     if p - 1 =? 2 then [ShowToast "Your driver is 2 minutes away!"] else []))
    \/ ((e = None \/ exists p, e = Some p /\ p <= 0) /\ etaUpdater e = (Some 0, [])).
Proof.
  intros [p|]; simpl.
  - destruct (p >? 0) eqn:E.
    + left. exists p. apply Z.gtb_lt in E. auto.
    + right. split; [right; exists p; split; [reflexivity|] | reflexivity].
      rewrite Z.gtb_ltb in E. apply Z.ltb_ge in E. exact E.
  - right. split; [left|]; reflexivity.
Qed.

Lemma etaTicks_S :
  forall (n : nat) (s : State),
    etaTicks (S n) s
    = (setDynamicEta (fst (etaUpdater (etaAfter n s))) (fst (etaTicks n s)),
       (snd (etaTicks n s) ++ snd (etaUpdater (etaAfter n s)))%list).
Proof.
  intros n s. unfold etaAfter. simpl. unfold andThen, etaTick.
  destruct (etaTicks n s) as [s1 c1]. simpl.
  destruct (etaUpdater (dynamicEta s1)) as [e c2]. reflexivity.
Qed.

Lemma etaAfter_S :
  forall (n : nat) (s : State), etaAfter (S n) s = fst (etaUpdater (etaAfter n s)).
Proof.
  intros n s. unfold etaAfter at 1. rewrite etaTicks_S. reflexivity.
Qed.

Lemma notifications_S :
  forall (n : nat) (s : State),
    notifications (S n) s
    = (notifications n s + toastCount (snd (etaUpdater (etaAfter n s))))%nat.
Proof.
  intros n s. unfold notifications at 1. rewrite etaTicks_S. simpl.
  unfold toastCount. rewrite filter_app, length_app. reflexivity.
Qed.

(** A firing shows the toast exactly when it brings the value to 2. *)
Lemma etaUpdater_toast :
  forall e : option Z,
    (fst (etaUpdater e) = Some 2 -> toastCount (snd (etaUpdater e)) = 1%nat)
    /\ (fst (etaUpdater e) <> Some 2 -> toastCount (snd (etaUpdater e)) = 0%nat).
Proof.
  intros e. destruct (etaUpdater_cases e) as [[p [_ [_ ->]]] | [_ ->]]; simpl.
  - destruct (p - 1 =? 2) eqn:E.
    + split; [reflexivity|]. apply Z.eqb_eq in E. intros H. exfalso. apply H. now rewrite E.
    + split; [|reflexivity]. apply Z.eqb_neq in E. intros H. inversion H. contradiction.
  - split; [discriminate | reflexivity].
Qed.

(** After a firing the value is set and not negative. *)
Lemma etaUpdater_floor :
  forall e : option Z, exists y, fst (etaUpdater e) = Some y /\ 0 <= y.
Proof.
  intros e. destruct (etaUpdater_cases e) as [[p [_ [Hp ->]]] | [_ ->]]; simpl.
  - exists (p - 1). split; [reflexivity | lia].
  - exists 0. split; [reflexivity | lia].
Qed.

Lemma etaAfter_notBelowZero :
  forall (n : nat) (s : State), notBelowZero (dynamicEta s) -> notBelowZero (etaAfter n s).
Proof.
  intros [|n] s H.
  - exact H.
  - rewrite etaAfter_S. intros x Hx.
    destruct (etaUpdater_floor (etaAfter n s)) as [y [Hy Hpos]]. congruence.
Qed.

(** Once the toast was shown the value is 2 or less, so no later firing
    brings it to 2 again. *)
Lemma notifications_at_most_once :
  forall (n : nat) (s : State),
    notifications n s = 0%nat
    \/ (notifications n s = 1%nat /\ exists x, etaAfter n s = Some x /\ x <= 2).
Proof.
  induction n as [|n IH]; intros s.
  - left. reflexivity.
  - rewrite notifications_S, etaAfter_S.
    destruct (etaUpdater_cases (etaAfter n s)) as [[p [Hp [Hpos Hu]]] | [_ Hu]];
      rewrite Hu; simpl.
    + destruct (IH s) as [H0 | [H1 [x [Hx Hle]]]].
      * rewrite H0. destruct (p - 1 =? 2) eqn:E; simpl; [right | left; reflexivity].
        apply Z.eqb_eq in E. split; [reflexivity|]. exists (p - 1). split; [reflexivity | lia].
      * assert (x = p) by congruence. subst x.
        assert (E : (p - 1 =? 2) = false) by (apply Z.eqb_neq; lia).
        rewrite E, H1. simpl. right. split; [reflexivity|].
        exists (p - 1). split; [reflexivity | lia].
    + destruct (IH s) as [H0 | [H1 _]].
      * left. rewrite H0. reflexivity.
      * right. rewrite H1. split; [reflexivity|]. exists 0. split; [reflexivity | lia].
Qed.

(** From a start [v] that is not negative, [n] firings leave [v - n], or 0
    once that would be negative. *)
Lemma etaAfter_closed_form :
  forall (n : nat) (s : State) (v : Z),
    dynamicEta s = Some v -> 0 <= v ->
    etaAfter n s = Some (Z.max 0 (v - Z.of_nat n)).
Proof.
  induction n as [|n IH]; intros s v Hv Hpos.
  - unfold etaAfter. simpl. rewrite Hv. f_equal. lia.
  - rewrite etaAfter_S, (IH s v Hv Hpos). simpl.
    destruct (Z.max 0 (v - Z.of_nat n) >? 0) eqn:E; simpl; f_equal.
    + apply Z.gtb_lt in E. lia.
    + rewrite Z.gtb_ltb in E. apply Z.ltb_ge in E. lia.
Qed.

(** The notification is shown by the firing number [v - 2], when there is
    one: a start at 3 or more shows it once, a start at 2 or less never. *)
Lemma notifications_closed_form :
  forall (n : nat) (s : State) (v : Z),
    dynamicEta s = Some v -> 0 <= v ->
    notifications n s = if (3 <=? v) && (v - 2 <=? Z.of_nat n) then 1%nat else 0%nat.
Proof.
  induction n as [|n IH]; intros s v Hv Hpos.
  - unfold notifications. simpl.
    destruct (3 <=? v) eqn:E3; simpl; [| reflexivity].
    apply Z.leb_le in E3. destruct (v - 2 <=? 0) eqn:E; [| reflexivity].
    apply Z.leb_le in E. lia.
  - rewrite notifications_S, (IH s v Hv Hpos), (etaAfter_closed_form n s v Hv Hpos). simpl.
    destruct (3 <=? v) eqn:E3; simpl.
    + apply Z.leb_le in E3.
      destruct (v - 2 <=? Z.of_nat n) eqn:En; destruct (v - 2 <=? Z.pos (Pos.of_succ_nat n)) eqn:ESn;
        destruct (Z.max 0 (v - Z.of_nat n) >? 0) eqn:Epos;
        try destruct (Z.max 0 (v - Z.of_nat n) - 1 =? 2) eqn:E2; simpl; try reflexivity;
        rewrite ?Z.leb_le, ?Z.leb_gt, ?Z.eqb_eq, ?Z.eqb_neq in *;
        try (apply Z.gtb_lt in Epos); try (rewrite Z.gtb_ltb in Epos; apply Z.ltb_ge in Epos);
        lia.
    + apply Z.leb_gt in E3.
      destruct (Z.max 0 (v - Z.of_nat n) >? 0) eqn:Epos; [| reflexivity].
      destruct (Z.max 0 (v - Z.of_nat n) - 1 =? 2) eqn:E2; [| reflexivity].
      apply Z.eqb_eq in E2. lia.
Qed.


(** C4 (as amended): for a ride whose parsed ETA is not negative (or does
    not parse), over any run of countdown firings with nothing in between,
    the dynamic ETA does not increase and is never below 0, at most one
    "2 minutes away" notification is shown, and a firing shows it exactly
    when it brings the value to 2; a ride whose parsed ETA is 3 or more has
    been notified exactly once when its countdown has reached 0. *)
Theorem eta_countdown : eta_countdown_claim notBelowZero threeOrMore.
Proof.
  intros rd s n Hinit Hpre. rewrite <- Hinit in Hpre.
  pose proof (etaAfter_notBelowZero n s Hpre) as Hn.
  split; [| split; [exact Hn | split; [| split; [| split]]]].
  - intros x y Hx Hy. rewrite etaAfter_S, Hx in Hy. specialize (Hn x Hx).
    simpl in Hy. destruct (x >? 0); inversion Hy; lia.
  - destruct (notifications_at_most_once n s) as [H | [H _]]; rewrite H; lia.
  - intros H2. rewrite notifications_S. rewrite etaAfter_S in H2.
    rewrite (proj1 (etaUpdater_toast _) H2). lia.
  - intros H2. rewrite notifications_S. rewrite etaAfter_S in H2.
    rewrite (proj2 (etaUpdater_toast _) H2). lia.
  - intros [v [Hv H3]] H0. rewrite <- Hinit in Hv.
    assert (Hpos : 0 <= v) by lia.
    rewrite (etaAfter_closed_form n s v Hv Hpos) in H0. injection H0 as H0.
    rewrite (notifications_closed_form n s v Hv Hpos).
    assert (E3 : (3 <=? v) = true) by (apply Z.leb_le; lia).
    assert (En : (v - 2 <=? Z.of_nat n) = true) by (apply Z.leb_le; lia).
    rewrite E3, En. reflexivity.
Qed.

Lemma eta_countdown_witness :
  notIncreased (etaAfter 5 (justConfirmed (offerWithEta "8 min")))
               (etaAfter 6 (justConfirmed (offerWithEta "8 min")))
  /\ (notifications 5 (justConfirmed (offerWithEta "8 min")) <= 1)%nat
  /\ notifications 8 (justConfirmed (offerWithEta "8 min")) = 1%nat.
Proof.
  assert (Hpre : notBelowZero (initialEta (offerWithEta "8 min"))).
  { intros x Hx. vm_compute in Hx. inversion Hx. lia. }
  destruct (eta_countdown (offerWithEta "8 min") (justConfirmed (offerWithEta "8 min")) 5%nat
              eq_refl Hpre) as [Hmono [_ [Honce _]]].
  destruct (eta_countdown (offerWithEta "8 min") (justConfirmed (offerWithEta "8 min")) 8%nat
              eq_refl Hpre) as [_ [_ [_ [_ [_ Hone]]]]].
  split; [exact Hmono | split; [exact Honce |]].
  apply Hone; [exists 8; split; [reflexivity | lia] | reflexivity].
Defined.

(** C4 (as stated) fails.  An offer whose ETA text is "2 min" starts the
    countdown at 2: no firing brings the value to 2, and the countdown
    reaches 0 without a notification.  An offer whose ETA text is "-3 min"
    starts it at -3, below 0, and the first firing raises it to 0. *)
Lemma countdown_from_two_never_notifies :
  ~ eta_countdown_claim anyEta anyEta
  /\ (etaAfter 0 (justConfirmed (offerWithEta "2 min")) = Some 2
      /\ etaAfter 2 (justConfirmed (offerWithEta "2 min")) = Some 0
      /\ notifications 2 (justConfirmed (offerWithEta "2 min")) = 0%nat)
  /\ (etaAfter 0 (justConfirmed (offerWithEta "-3 min")) = Some (-3)
      /\ etaAfter 1 (justConfirmed (offerWithEta "-3 min")) = Some 0).
Proof.
  split; [| repeat split].
  intro H.
  destruct (H (offerWithEta "2 min") (justConfirmed (offerWithEta "2 min")) 2%nat
              eq_refl I) as [_ [_ [_ [_ [_ Hone]]]]].
  specialize (Hone I eq_refl). discriminate Hone.
Qed.

Example negative_eta_countdown :
  initialEta (offerWithEta "-3 min") = Some (-3)
  /\ etaAfter 0 (justConfirmed (offerWithEta "-3 min")) = Some (-3)
  /\ etaAfter 1 (justConfirmed (offerWithEta "-3 min")) = Some 0.
Proof. repeat split. Qed.

(** From "8 min" the notification comes with the sixth firing and only
    then; from "2 min" the value is 2 at the start and no firing brings
    it there, so no notification is shown. *)
Example notification_from_8_and_from_2 :
  map (fun n => notifications n (justConfirmed (offerWithEta "8 min")))
      [0; 5; 6; 7; 8; 9; 10]%nat = [0; 0; 1; 1; 1; 1; 1]%nat
  /\ map (fun n => etaAfter n (justConfirmed (offerWithEta "8 min"))) [5; 6; 8; 9]%nat
     = [Some 3; Some 2; Some 0; Some 0]
  /\ etaAfter 0 (justConfirmed (offerWithEta "2 min")) = Some 2
  /\ map (fun n => notifications n (justConfirmed (offerWithEta "2 min")))
         [0; 1; 2; 3]%nat = [0; 0; 0; 0]%nat.
Proof. repeat split. Qed.

(** C9 (the code at the failing input): an offer whose ETA text is
    "About 8 min" leaves the dynamic ETA unset when the ride is confirmed,
    and the view shows the text; the first firing of the countdown sets the
    dynamic ETA to 0, and the view shows "0 min".  An offer with "8 min"
    starts at 8. *)
Theorem unparsed_eta_is_zero_after_first_tick :
  initialEta (offerWithEta "About 8 min") = None
  /\ dynamicEta (justConfirmed (offerWithEta "About 8 min")) = None
  /\ displayedEta (justConfirmed (offerWithEta "About 8 min")) (offerWithEta "About 8 min")
     = inr "About 8 min"
  /\ dynamicEta (fst (etaTick (justConfirmed (offerWithEta "About 8 min")))) = Some 0
  /\ displayedEta (fst (etaTick (justConfirmed (offerWithEta "About 8 min"))))
       (offerWithEta "About 8 min") = inl 0
  /\ dynamicEta (justConfirmed (offerWithEta "8 min")) = Some 8.
Proof. repeat split. Qed.

(* ================================================================== *)
(** * Theorems: the ride lifecycle *)
(* ================================================================== *)

Import Orchestrator.

Lemma ui_fold_perform :
  forall (cmds : list Cmd) (w : World), ui (fold_left perform cmds w) = ui w.
Proof.
  induction cmds as [|c cmds IH]; intros w; simpl.
  - reflexivity.
  - rewrite IH. destruct c; reflexivity.
Qed.

Lemma rideStatus_clampEffect :
  forall s : State, rideStatus (clampEffect s) = rideStatus s.
Proof.
  intros s. unfold clampEffect. destruct (passengerCount s >? maxPassengers (vehicle s));
    reflexivity.
Qed.

Lemma rideStatus_commit :
  forall (r : State * list Cmd) (w : World),
    rideStatus (ui (commit r w)) = rideStatus (fst r).
Proof.
  intros r w. unfold commit. cbn [ui withGpayIsProcessing].
  rewrite ui_fold_perform. cbn [ui withUi]. apply rideStatus_clampEffect.
Qed.

Lemma rideStatus_etaTick :
  forall s : State, rideStatus (fst (etaTick s)) = rideStatus s.
Proof.
  intros s. unfold etaTick. destruct (etaUpdater (dynamicEta s)). reflexivity.
Qed.

Lemma rideStatus_trackingEffect :
  forall s : State, rideStatus (fst (trackingEffect s)) = rideStatus s.
Proof.
  intros s. unfold trackingEffect.
  destruct (rideStatus s) eqn:E; destruct (rideDetails s) as [rd|];
    try destruct (initialEta rd); simpl; congruence.
Qed.

Lemma rideStatus_runCallback :
  forall (cb : Callback) (s : State), rideStatus (fst (runCallback cb s)) = PAID.
Proof.
  intros [[[rd|] p d] | [[rd|] p d]] s; reflexivity.
Qed.

(** The status after a step, by the action that was taken: a click on
    "Find Ride" gives [SEARCHING], a resolved search [CONFIRMED], a rejected
    one [ERROR], a payment timer [PAID], a committed cancellation or a click
    on "Book Another Ride" or "Try Again" [IDLE]; nothing else writes it. *)
Lemma step_status :
  forall (a : Action) (w w' : World),
    step a w = Some w' ->
    rideStatus (ui w')
    = match a with
      | ClickFindRide => SEARCHING
      | SearchSettles _ (inl _) _ => CONFIRMED
      | SearchSettles _ (inr _) _ => ERROR
      | TimerFires _ => PAID
      | ClickConfirmCancellation => IDLE
      | ClickNewRide => IDLE
      | _ => rideStatus (ui w)
      end.
Proof.
  intros a w w' H.
  destruct a; unfold step, when, dispatch in H;
    repeat match type of H with
           | (if ?b then _ else _) = Some _ => destruct b eqn:?; [| discriminate H]
           | match ?x with Some _ => _ | None => _ end = Some _ =>
               destruct x as [[? ?]|] eqn:?; [| discriminate H]
           end;
    try (injection H as <-; rewrite ?rideStatus_commit; cbn [fst]);
    try reflexivity.
  - unfold set, handleIncrement. cbn [fst].
    destruct (passengerCount (ui w) <? maxPassengers (vehicle (ui w))); reflexivity.
  - unfold set, handleDecrement. cbn [fst].
    destruct (passengerCount (ui w) >? 1); reflexivity.
  - unfold handleFindRide.
    repeat match goal with
           | E : (_ && _) = true |- _ => apply andb_prop in E; destruct E
           end.
    match goal with E : negb ?b = true |- _ => apply negb_true_iff in E; rewrite E end.
    reflexivity.
  - destruct r as [details | e]; rewrite rideStatus_commit; [| reflexivity].
    unfold andThen.
    destruct (handleFindRide_resolved s s0 details env (ui w)) as [s1 c1] eqn:E1.
    destruct (trackingEffect s1) as [s2 c2] eqn:E2. cbn [fst].
    change s2 with (fst (s2, c2)). rewrite <- E2, rideStatus_trackingEffect.
    change s1 with (fst (s1, c1)). rewrite <- E1. reflexivity.
  - unfold handlePayment. destruct (PaymentType_eqb (pm_type m) GOOGLE_PAY); reflexivity.
  - cbn [ui withGpayIsProcessing]. rewrite rideStatus_commit. reflexivity.
  - apply rideStatus_runCallback.
  - unfold handleCancelRide.
    repeat match goal with
           | E : (_ && _) = true |- _ => apply andb_prop in E; destruct E
           end.
    match goal with E : negb ?b = true |- _ => apply negb_true_iff in E; rewrite E end.
    rewrite andb_false_r. reflexivity.
  - apply rideStatus_trackingEffect.
  - apply rideStatus_etaTick.
Qed.

(** In every reachable state the status is one of [IDLE], [SEARCHING],
    [CONFIRMED], [PAID] and [ERROR]: [COMPLETED] is never entered. *)
Lemma reachable_status_is_lifecycle :
  forall w : World, reachable w -> isLifecycleStatus (rideStatus (ui w)) = true.
Proof.
  assert (G : forall acts w0 w,
             isLifecycleStatus (rideStatus (ui w0)) = true ->
             run acts w0 = Some w -> isLifecycleStatus (rideStatus (ui w)) = true).
  { induction acts as [|a acts IH]; intros w0 w H0 Hrun; simpl in Hrun.
    - injection Hrun as <-. exact H0.
    - destruct (step a w0) as [w1|] eqn:Hstep; [| discriminate Hrun].
      apply (IH w1 w); [| exact Hrun].
      rewrite (step_status a w0 w1 Hstep).
      destruct a; try exact H0; try reflexivity.
      destruct r; reflexivity. }
  intros w [acts Hrun]. exact (G acts initialWorld w eq_refl Hrun).
Qed.

(** [PAID] is written by the callback of a payment timer and by nothing
    else, and [CONFIRMED] by the resolution of a search and by nothing
    else. *)
Lemma paid_and_confirmed_writers :
  forall (a : Action) (w w' : World),
    step a w = Some w' ->
    (rideStatus (ui w') = PAID -> rideStatus (ui w) <> PAID -> exists k, a = TimerFires k)
    /\ (rideStatus (ui w') = CONFIRMED -> rideStatus (ui w) <> CONFIRMED ->
        exists k details env, a = SearchSettles k (inl details) env).
Proof.
  intros a w w' Hstep. pose proof (step_status a w w' Hstep) as Hs.
  split; intros Hnew Hold; rewrite Hnew in Hs;
    destruct a; try congruence; try discriminate Hs; eauto.
  - destruct r; discriminate Hs.
  - destruct r; [eauto | discriminate Hs].
Qed.

(** A payment button can be clicked only while the status is [CONFIRMED]
    and an offer is set. *)
Lemma pay_button_needs_confirmed_offer :
  forall (m : PaymentMethod) (w w' : World),
    step (ClickPay m) w = Some w' ->
    rideStatus (ui w) = CONFIRMED /\ exists rd, rideDetails (ui w) = Some rd.
Proof.
  intros m w w' H. simpl in H. unfold when in H.
  destruct (sheetClickable (ui w)); [| discriminate H].
  destruct (cardShown (ui w)) eqn:E; [| discriminate H].
  unfold cardShown, trackingActive in E. apply andb_prop in E. destruct E as [Est Erd].
  split.
  - destruct (rideStatus (ui w)); try discriminate Est. reflexivity.
  - destruct (rideDetails (ui w)) as [rd|]; [exists rd; reflexivity | discriminate Erd].
Qed.

(** C2 (the code at the failing input): the rider books a ride, chooses the
    card and cancels the ride 1.2 s later, which resets the status to
    [IDLE] and clears the offer; the card's timer is still pending, and
    when it fires at 2 s the status goes from [IDLE] to [PAID] and the
    cancelled ride is handed to [onRideComplete].  (The timer cannot be
    outrun: time does not pass the instant it is due without it firing.) *)
Theorem paid_after_cancellation :
  option_map (fun w => (rideStatus (ui w), rideDetails (ui w), completed w, clock w))
             (run bookPayCancel initialWorld)
  = Some (IDLE, None, [], 1200)
  /\ option_map (fun w => (rideStatus (ui w), rideDetails (ui w), completed w, clock w))
                (run (bookPayCancel ++ [Elapse 800; TimerFires 0]) initialWorld)
     = Some (PAID, None, [mkRidePayload "MG Road" "Bus Stand" offer8], 2000)
  /\ run (bookPayCancel ++ [Elapse 801]) initialWorld = None.
Proof. repeat split. Qed.

(** The same pending timer, when the rider has already started the next
    search: it ends that search's [SEARCHING] in [PAID], and the search then
    resolves from [PAID] to [CONFIRMED]. *)
Example confirmed_after_paid :
  map (fun acts => option_map (fun w => rideStatus (ui w)) (run acts initialWorld))
      [bookPayCancel ++ [TypePickup "Bus Stand"; TypeDestination "Fort"; ClickFindRide];
       bookPayCancel ++ [TypePickup "Bus Stand"; TypeDestination "Fort"; ClickFindRide;
                         Elapse 800; TimerFires 0];
       bookPayCancel ++ [TypePickup "Bus Stand"; TypeDestination "Fort"; ClickFindRide;
                         Elapse 800; TimerFires 0; SearchSettles 0 (inl offer8) browser]]%list
  = [Some SEARCHING; Some PAID; Some CONFIRMED].
Proof. reflexivity. Qed.

Lemma reachable_status_is_lifecycle_witness :
  exists w : World,
    run (bookAndPay ++ [TimerFires 0])%list initialWorld = Some w
    /\ isLifecycleStatus (rideStatus (ui w)) = true.
Proof.
  eexists. split; [vm_compute; reflexivity |].
  apply reachable_status_is_lifecycle.
  exists (bookAndPay ++ [TimerFires 0])%list. vm_compute; reflexivity.
Defined.

Lemma paid_and_confirmed_writers_witness :
  exists w w',
    step (SearchSettles 0 (inl offer8) browser) w = Some w'
    /\ (rideStatus (ui w') = CONFIRMED -> rideStatus (ui w) <> CONFIRMED ->
        exists k details env,
          SearchSettles 0 (inl offer8) browser = SearchSettles k (inl details) env).
Proof.
  eexists (mkWorld searchingState 0 [] [("MG Road", "Bus Stand")] false [] []).
  eexists. split; [reflexivity |].
  apply (paid_and_confirmed_writers (SearchSettles 0 (inl offer8) browser)
           (mkWorld searchingState 0 [] [("MG Road", "Bus Stand")] false [] []) _ eq_refl).
Defined.

(** The countdown of the booked ride reaches 2 and shows its toast; when
    the tracking effect then runs again - the toast is a state change of
    [App], whose next render hands the view a new [showToast], one of the
    effect's dependencies - the dynamic ETA is 8 again, and six firings
    later the toast is shown a second time. *)
Example tracking_effect_rerun_restarts_countdown :
  map (fun acts => option_map (fun w => (dynamicEta (ui w), toasts w))
                              (run (firstn 4 bookPayCancel ++ acts) initialWorld))
      [repeat EtaTick 6;
       repeat EtaTick 6 ++ [TrackingEffectRuns];
       repeat EtaTick 6 ++ [TrackingEffectRuns] ++ repeat EtaTick 6]%list
  = [Some (Some 2, ["Your driver is 2 minutes away!"]);
     Some (Some 8, ["Your driver is 2 minutes away!"]);
     Some (Some 2, ["Your driver is 2 minutes away!"; "Your driver is 2 minutes away!"])].
Proof. reflexivity. Qed.

(* ================================================================== *)
(** * Theorems: the debounced fare estimate *)
(* ================================================================== *)

Import FareEstimator.

Lemma estimateTimerFires_result :
  forall (i : Inputs) (s : State),
    (issued (snd (estimateTimerFires i s)) = [i] \/ issued (snd (estimateTimerFires i s)) = [])
    /\ fareEstimate (fst (estimateTimerFires i s)) = None.
Proof.
  intros [p d v pc] s. unfold estimateTimerFires. simpl.
  destruct ((Z.of_nat (Js.length p) >? 2) && (Z.of_nat (Js.length d) >? 2)); simpl; auto.
Qed.

Lemma estimateSettles_fareEstimate :
  forall (r : FareEstimate + Js.Error) (s : State),
    fareEstimate (fst (estimateSettles r s))
    = match r with
      | inl e => Some e
      | inr _ => fareEstimate s
      end.
Proof. intros [e | e] s; reflexivity. Qed.

(** A property kept by every step that is not a trigger is kept by a run
    without triggers. *)
Lemma run_invariant :
  forall I : Est -> Prop,
    (forall a w w', noTrigger a = true -> step a w = Some w' -> I w -> I w') ->
    forall acts w w',
      forallb noTrigger acts = true -> run acts w = Some w' -> I w -> I w'.
Proof.
  intros I Hstep. induction acts as [|a acts IH]; intros w w' Hnt Hrun Hw; simpl in *.
  - injection Hrun as <-. exact Hw.
  - apply andb_prop in Hnt. destruct Hnt as [Ha Hacts].
    destruct (step a w) as [w1|] eqn:E; [| discriminate Hrun].
    exact (IH w1 w' Hacts Hrun (Hstep a w w1 Ha E Hw)).
Qed.

(** The clock never goes back. *)
Lemma step_now_monotone :
  forall a w w', step a w = Some w' -> now w <= now w'.
Proof.
  intros a w w' H. destruct a; simpl in H; unfold when in H.
  - injection H as <-. simpl. lia.
  - destruct (0 <=? d) eqn:Ed; simpl in H; [| discriminate H].
    apply Z.leb_le in Ed.
    destruct (timeoutId w) as [[due i]|]; [destruct (now w + d <=? due) |];
      try discriminate H; injection H as <-; simpl; lia.
  - destruct (timeoutId w) as [[due i]|]; [| discriminate H].
    destruct (due <=? now w); [| discriminate H]. injection H as <-. simpl. lia.
  - destruct (nth_error (inflight w) k); [| discriminate H]. injection H as <-. simpl. lia.
Qed.

(** While the timer for [A] is pending and no call is awaited, nothing but
    time can pass before it is due. *)
Lemma pending_timer_waits :
  forall (due : Z) (A : Inputs) (cs : list Inputs) a w w',
    noTrigger a = true -> step a w = Some w' ->
    pendingUntil due A cs w -> pendingUntil due A cs w'.
Proof.
  intros due A cs a w w' Ha Hstep Hw Hlt.
  pose proof (step_now_monotone a w w' Hstep) as Hmono.
  destruct Hw as [Ht [Hi Hc]]; [lia |].
  destruct a; simpl in Hstep; unfold when in Hstep.
  - discriminate Ha.
  - destruct ((0 <=? d) && _); [| discriminate Hstep]. injection Hstep as <-. simpl. auto.
  - rewrite Ht in Hstep. destruct (due <=? now w) eqn:E; [| discriminate Hstep].
    apply Z.leb_le in E. lia.
  - rewrite Hi in Hstep. destruct k; discriminate Hstep.
Qed.

(** After the last trigger: its timer fires once, makes at most its call,
    and only the answer to that call sets the estimate. *)
Lemma after_last_trigger :
  forall (due : Z) (B : Inputs) (cs : list Inputs) a w w',
    noTrigger a = true -> step a w = Some w' ->
    lastTrigger due B cs w -> lastTrigger due B cs w'.
Proof.
  intros due B cs a w w' Ha Hstep Hw. unfold lastTrigger in *.
  destruct a; simpl in Hstep; unfold when in Hstep.
  - discriminate Ha.
  - destruct ((0 <=? d) && _); [| discriminate Hstep]. injection Hstep as <-. simpl. exact Hw.
  - destruct Hw as [[Ht [Hi Hc]] | [Ht _]]; rewrite Ht in Hstep; [| discriminate Hstep].
    destruct (due <=? now w); [| discriminate Hstep]. injection Hstep as <-. simpl.
    right. rewrite Hi, Hc.
    destruct (estimateTimerFires_result B (ui w)) as [[Hiss | Hiss] Hfare];
      rewrite Hiss, Hfare; simpl; rewrite ?app_nil_r;
      (split; [reflexivity | split; [auto | split; [auto | discriminate]]]).
  - destruct Hw as [[_ [Hi _]] | [Ht [Hi [Hc Hshown]]]].
    + rewrite Hi in Hstep. destruct k; discriminate Hstep.
    + destruct Hi as [Hi | Hi]; rewrite Hi in Hstep.
      * destruct k; discriminate Hstep.
      * destruct k as [|k]; [| destruct k; discriminate Hstep].
        injection Hstep as <-. simpl. right.
        split; [exact Ht | split; [left; reflexivity | split; [exact Hc |]]].
        intros e He. rewrite estimateSettles_fareEstimate in He.
        destruct r as [est | err]; [reflexivity | exact (Hshown e He)].
Qed.

(** C3 (as amended): when no estimate call is awaited at the first of two
    triggers [A] and [B] that are less than 500 ms apart, and no trigger
    follows [B], at most one call is made and it carries [B]'s inputs, the
    timer pending for [A] is replaced by [B]'s, and once [B]'s timer has
    fired an estimate that is set answers [B]'s call.  (A call that is
    already awaited is not cancelled by a trigger.) *)
Theorem debounce_cancels_pending : debounce_claim quiet.
Proof.
  intros w0 wa wb wb' w A B between after Hquiet HA Hnt1 Hrun1 Hlt HB Hnt2 Hrun2.
  unfold quiet in Hquiet.
  simpl in HA. injection HA as <-. simpl in Hlt.
  assert (H1 : pendingUntil (now w0 + 500) A (calls w0) wb).
  { apply (run_invariant (pendingUntil (now w0 + 500) A (calls w0))
             (pending_timer_waits (now w0 + 500) A (calls w0)) between _ wb Hnt1 Hrun1).
    intros _. simpl. auto. }
  destruct (H1 Hlt) as [_ [Hi Hc]].
  simpl in HB. injection HB as <-.
  assert (H2 : lastTrigger (now wb + 500) B (calls w0) w).
  { apply (run_invariant (lastTrigger (now wb + 500) B (calls w0))
             (after_last_trigger (now wb + 500) B (calls w0)) after _ w Hnt2 Hrun2).
    left. simpl. auto. }
  split; [| split].
  - destruct H2 as [[_ [_ H]] | [_ [_ [H _]]]]; auto.
  - reflexivity.
  - intros Hnone. destruct H2 as [[H _] | [_ [_ [_ H]]]]; [congruence | exact H].
Qed.

Lemma debounce_cancels_pending_witness :
  exists w,
    run ([Trigger tripA; Elapse 200; Trigger tripB] ++ answered) initialEst = Some w
    /\ (calls w = calls initialEst \/ calls w = (calls initialEst ++ [tripB])%list)
    /\ (timeoutId w = None ->
        forall e, fareEstimate (ui w) = Some e -> shownFor w = Some tripB).
Proof.
  eexists. split; [reflexivity |].
  pose proof debounce_cancels_pending as H. unfold debounce_claim in H.
  edestruct H with (w0 := initialEst) (A := tripA) (B := tripB)
                   (between := [Elapse 200]) (after := answered)
    as [Hcalls [_ Hshown]];
    [ reflexivity | reflexivity | reflexivity | reflexivity | simpl; lia
    | reflexivity | reflexivity | reflexivity | ].
  split; [exact Hcalls | exact Hshown].
Defined.

(** C3 (as stated) fails: the call made for an earlier input is still
    awaited when [A] and [B] arrive 200 ms apart; [B]'s call is made and
    answered (95), then the earlier call is answered (120), and the estimate
    that is set from then on is the earlier input's. *)
Lemma late_answer_overwrites_fresh_estimate : ~ debounce_claim anyState.
Proof.
  intro H. unfold debounce_claim in H.
  edestruct H with (w0 := stateAwaitingZ) (A := tripA) (B := tripB)
                   (between := [Elapse 200]) (after := lateAnswer)
    as [_ [_ Hshown]];
    [ exact I | reflexivity | reflexivity | reflexivity | simpl; lia
    | reflexivity | reflexivity | reflexivity | ].
  specialize (Hshown eq_refl _ eq_refl). discriminate Hshown.
Qed.

Example late_answer_trace :
  option_map (fun w => (calls w, inflight w, shownEstimate (ui w), shownFor w))
             (run (awaitingZ ++ [Elapse 500; Trigger tripA; Elapse 200; Trigger tripB]
                   ++ lateAnswer) initialEst)
  = Some ([tripZ; tripB], [], Some (mkFareEstimate "120"), Some tripZ).
Proof. reflexivity. Qed.

(* ================================================================== *)
(** * Theorems: more of the retrying wrapper and the calls built on it *)
(* ================================================================== *)

(** Whatever the operation does, the wrapper calls it at least once and at
    most three times, and hands back exactly what the last call produced:
    its value, or the error it threw (the wrapper's own "API call failed
    after multiple retries." is never seen); it sleeps once after every
    failure it classifies as retriable, the third included. *)
Theorem withRetry_reports_last_attempt :
  forall (T W : Type) (jitter : nat -> Z) (apiCall : @GeminiService.ApiCall T W) (w : W),
    (1 <= GeminiService.attempts (GeminiService.logOf (GeminiService.withRetry jitter apiCall w))
     <= 3)%nat
    /\ exists wLast r,
        apiCall wLast = (r, GeminiService.worldOf (GeminiService.withRetry jitter apiCall w))
        /\ GeminiService.outcomeOf (GeminiService.withRetry jitter apiCall w) = asOutcome r
        /\ List.length (sleptIn (GeminiService.logOf (GeminiService.withRetry jitter apiCall w)))
           = match r with
             | inl _ =>
                 pred (GeminiService.attempts
                         (GeminiService.logOf (GeminiService.withRetry jitter apiCall w)))
             | inr e =>
                 if GeminiService.isRetriable e then 3%nat
                 else pred (GeminiService.attempts
                              (GeminiService.logOf (GeminiService.withRetry jitter apiCall w)))
             end.
Proof.
  intros T W jitter apiCall w.
  unfold GeminiService.withRetry, GeminiService.MAX_RETRIES. simpl.
  destruct (apiCall w) as [[v1 | e1] w1] eqn:E1; simpl;
    [| destruct (GeminiService.isRetriable e1) eqn:R1; simpl;
       [ destruct (apiCall w1) as [[v2 | e2] w2] eqn:E2; simpl;
         [| destruct (GeminiService.isRetriable e2) eqn:R2; simpl;
            [ destruct (apiCall w2) as [[v3 | e3] w3] eqn:E3; simpl;
              [| destruct (GeminiService.isRetriable e3) eqn:R3; simpl ] |] ] |] ].
  all: split.
  all: try (cbv [GeminiService.attempts filter GeminiService.isInvoked List.length]; lia).
  - exists w, (inl v1). rewrite E1. repeat split.
  - exists w1, (inl v2). rewrite E2. repeat split.
  - exists w2, (inl v3). rewrite E3. repeat split.
  - exists w2, (inr e3). rewrite E3, R3. repeat split.
  - exists w2, (inr e3). rewrite E3, R3. repeat split.
  - exists w1, (inr e2). rewrite E2, R2. repeat split.
  - exists w, (inr e1). rewrite E1, R1. repeat split.
Qed.

(** When the wrapper gives up with a retriable error it has slept three
    times - after the third failure too, though no attempt follows - for
    1 s, 2 s and 4 s plus jitter: between 7 s and 10 s in all. *)
Theorem withRetry_exhausted_has_waited :
  forall (T W : Type) (jitter : nat -> Z) (apiCall : @GeminiService.ApiCall T W) (w : W)
         (e : Js.Error),
    (forall i, 0 <= jitter i < 1000) ->
    GeminiService.outcomeOf (GeminiService.withRetry jitter apiCall w) = GeminiService.Threw e ->
    GeminiService.isRetriable e = true ->
    sleptIn (GeminiService.logOf (GeminiService.withRetry jitter apiCall w))
    = [1000 + jitter 0%nat; 2000 + jitter 1%nat; 4000 + jitter 2%nat]
    /\ 7000 <= totalSlept (GeminiService.logOf (GeminiService.withRetry jitter apiCall w))
       < 10000.
Proof.
  intros T W jitter apiCall w e Hj.
  pose proof (Hj 0%nat) as J0. pose proof (Hj 1%nat) as J1. pose proof (Hj 2%nat) as J2.
  unfold GeminiService.withRetry, GeminiService.MAX_RETRIES. simpl.
  destruct (apiCall w) as [[v1 | e1] w1]; simpl;
    [| destruct (GeminiService.isRetriable e1) eqn:R1; simpl;
       [ destruct (apiCall w1) as [[v2 | e2] w2]; simpl;
         [| destruct (GeminiService.isRetriable e2) eqn:R2; simpl;
            [ destruct (apiCall w2) as [[v3 | e3] w3]; simpl;
              [| destruct (GeminiService.isRetriable e3) eqn:R3; simpl ] |] ] |] ];
    intros Hout Hre; try discriminate Hout;
    try (injection Hout as ->; congruence).
  unfold totalSlept, sleptIn, GeminiService.delay, GeminiService.logOf.
  cbn [flat_map app fold_right snd].
  change (2 ^ Z.of_nat 0 * 1000) with 1000.
  change (2 ^ Z.of_nat 1 * 1000) with 2000.
  change (2 ^ Z.of_nat 2 * 1000) with 4000.
  split; [reflexivity | lia].
Qed.

Lemma withRetry_exhausted_has_waited_witness :
  totalSlept
    (GeminiService.logOf
       (GeminiService.withRetry GeminiService.noJitter (GeminiService.scripted string)
          [inr (Js.newError "overloaded"); inr (Js.newError "overloaded");
           inr (Js.newError "overloaded")]))
  = 7000.
Proof.
  destruct (withRetry_exhausted_has_waited string _ GeminiService.noJitter
              (GeminiService.scripted string)
              [inr (Js.newError "overloaded"); inr (Js.newError "overloaded");
               inr (Js.newError "overloaded")]
              (Js.newError "overloaded")
              ltac:(intros i; unfold GeminiService.noJitter; lia) eq_refl eq_refl)
    as [_ H].
  reflexivity.
Defined.

Lemma withRetry_attempts_at_most_three :
  forall (T W : Type) (jitter : nat -> Z) (apiCall : @GeminiService.ApiCall T W) (w : W),
    (GeminiService.attempts (GeminiService.logOf (GeminiService.withRetry jitter apiCall w))
     <= 3)%nat.
Proof.
  intros T W jitter apiCall w.
  unfold GeminiService.withRetry, GeminiService.MAX_RETRIES. simpl.
  destruct (apiCall w) as [[v1 | e1] w1]; simpl;
    [| destruct (GeminiService.isRetriable e1); simpl;
       [ destruct (apiCall w1) as [[v2 | e2] w2]; simpl;
         [| destruct (GeminiService.isRetriable e2); simpl;
            [ destruct (apiCall w2) as [[v3 | e3] w3]; simpl;
              [| destruct (GeminiService.isRetriable e3); simpl ] |] ] |] ].
  all: cbv [GeminiService.attempts filter GeminiService.isInvoked List.length]; lia.
Qed.

(** A response at the first attempt whose body [JSON.parse] rejects, or
    that has no text, is not asked for again: after that one call
    [generateRideDetails] throws its fixed error (for a missing text, the
    [TypeError] of [trim]), [estimateFare] throws its fixed error, and
    [getPersonalizedSuggestions] returns the empty list. *)
Theorem unusable_response_is_not_retried :
  forall (W J : Type) (jitter : nat -> Z) (jsonParse : string -> option J) (emptyArray : J)
         (generateContent : @GeminiCalls.GenerateContent W) (w w1 : W) (text : option string),
    generateContent w = (inl text, w1) ->
    (forall t, text = Some t -> jsonParse (JsText.trim t) = None) ->
    GeminiCalls.generateRideDetails jitter jsonParse generateContent w
    = (GeminiService.Threw
         (match text with
          | Some _ => Js.newError "Could not get ride details from the server."
          | None => JsText.typeErrorOfUndefined "trim"
          end), w1, [GeminiService.Invoked 0])
    /\ GeminiCalls.estimateFare jitter jsonParse generateContent w
       = (GeminiService.Threw (Js.newError "Could not get fare estimate."), w1,
          [GeminiService.Invoked 0])
    /\ GeminiCalls.getPersonalizedSuggestions jitter jsonParse emptyArray generateContent w
       = (GeminiService.Returned emptyArray, w1, [GeminiService.Invoked 0]).
Proof.
  intros W J jitter jsonParse emptyArray generateContent w w1 text Hcall Hparse.
  unfold GeminiCalls.generateRideDetails, GeminiCalls.estimateFare,
    GeminiCalls.getPersonalizedSuggestions, GeminiCalls.afterRetry,
    GeminiService.withRetry, GeminiService.MAX_RETRIES.
  simpl. rewrite Hcall. simpl.
  unfold GeminiCalls.rideDetailsOf, GeminiCalls.fareEstimateOf, GeminiCalls.suggestionsOf.
  destruct text as [t|]; [rewrite (Hparse t eq_refl) |]; repeat split.
Qed.

Lemma unusable_response_is_not_retried_witness :
  GeminiCalls.estimateFare GeminiService.noJitter (fun _ : string => @None string)
    (GeminiService.scripted (option string)) [inl (Some "<html>Bad gateway</html>")]
  = (GeminiService.Threw (Js.newError "Could not get fare estimate."), [],
     [GeminiService.Invoked 0]).
Proof.
  destruct (unusable_response_is_not_retried _ string GeminiService.noJitter
              (fun _ : string => @None string) ""
              (GeminiService.scripted (option string))
              [inl (Some "<html>Bad gateway</html>")] []
              (Some "<html>Bad gateway</html>") eq_refl (fun t _ => eq_refl))
    as [_ [H _]].
  exact H.
Defined.

(** The suggestion prefetch, whatever the service does: outside [IDLE] it
    does nothing at all; in [IDLE] it makes at most three calls, always ends
    with the loading flag off, and leaves the suggestions as they were
    unless the service answered, in which case they are what
    [getPersonalizedSuggestions] made of the answer. *)
Theorem fetchSuggestions_always_settles :
  forall (W J : Type) (jitter : nat -> Z) (jsonParse : string -> option J) (emptyArray : J)
         (status : RideStatus) (generateContent : @GeminiCalls.GenerateContent W) (w : W)
         (st : GeminiCalls.SuggestionState),
    (status <> IDLE ->
     GeminiCalls.fetchSuggestions jitter jsonParse emptyArray status generateContent w st
     = (st, w, []))
    /\ (status = IDLE ->
        GeminiCalls.isLoadingSuggestions
          (fst (fst (GeminiCalls.fetchSuggestions jitter jsonParse emptyArray status
                       generateContent w st))) = false
        /\ (GeminiService.attempts
              (snd (GeminiCalls.fetchSuggestions jitter jsonParse emptyArray status
                      generateContent w st)) <= 3)%nat
        /\ match GeminiService.outcomeOf (GeminiService.withRetry jitter generateContent w) with
           | GeminiService.Returned text =>
               GeminiService.Returned
                 (GeminiCalls.suggestions
                    (fst (fst (GeminiCalls.fetchSuggestions jitter jsonParse emptyArray status
                                 generateContent w st))))
               = GeminiCalls.suggestionsOf jsonParse emptyArray text
           | GeminiService.Threw _ =>
               GeminiCalls.suggestions
                 (fst (fst (GeminiCalls.fetchSuggestions jitter jsonParse emptyArray status
                              generateContent w st)))
               = GeminiCalls.suggestions st
           end).
Proof.
  intros W J jitter jsonParse emptyArray status generateContent w st. split.
  - intros Hne. destruct status; try reflexivity. contradiction.
  - intros ->. unfold GeminiCalls.fetchSuggestions, GeminiCalls.getPersonalizedSuggestions,
      GeminiCalls.afterRetry.
    pose proof (withRetry_attempts_at_most_three _ W jitter generateContent w) as Hle.
    destruct (GeminiService.withRetry jitter generateContent w) as [[out w'] log].
    unfold GeminiService.outcomeOf, GeminiService.logOf, GeminiService.worldOf in *.
    cbn [fst snd] in *.
    destruct out as [text | e]; cbn [fst snd].
    + unfold GeminiCalls.suggestionsOf.
      destruct text as [t|]; [destruct (jsonParse (JsText.trim t)) |]; repeat split; auto.
    + repeat split; auto.
Qed.

Lemma fetchSuggestions_always_settles_witness :
  GeminiCalls.isLoadingSuggestions
    (fst (fst (GeminiCalls.fetchSuggestions GeminiService.noJitter
                 (fun t : string => Some t) "[]" IDLE
                 (GeminiService.scripted (option string))
                 [inr (Js.newError "503 UNAVAILABLE"); inl (Some "[1]")]
                 (GeminiCalls.mkSuggestionState "[0]" true)))) = false
  /\ (GeminiService.attempts
        (snd (GeminiCalls.fetchSuggestions GeminiService.noJitter
                (fun t : string => Some t) "[]" IDLE
                (GeminiService.scripted (option string))
                [inr (Js.newError "503 UNAVAILABLE"); inl (Some "[1]")]
                (GeminiCalls.mkSuggestionState "[0]" true))) <= 3)%nat.
Proof.
  destruct (fetchSuggestions_always_settles _ string GeminiService.noJitter
              (fun t : string => Some t) "[]" IDLE
              (GeminiService.scripted (option string))
              [inr (Js.newError "503 UNAVAILABLE"); inl (Some "[1]")]
              (GeminiCalls.mkSuggestionState "[0]" true)) as [_ H].
  destruct (H eq_refl) as [H1 [H2 _]].
  split; [exact H1 | exact H2].
Defined.

(* ================================================================== *)
(** * Theorems: the ride history of the application *)
(* ================================================================== *)

Lemma apply_stores_history :
  forall (op : App.HistoryOp) (h : App.HistoryState),
    App.stored (App.apply h op) = Some (App.rideHistory (App.apply h op)).
Proof. intros [ride iso loc | rideId rating] h; reflexivity. Qed.

Lemma applyAll_stores_history :
  forall (ops : list App.HistoryOp) (h : App.HistoryState),
    ops <> [] \/ App.stored h = Some (App.rideHistory h) ->
    App.stored (App.applyAll ops h) = Some (App.rideHistory (App.applyAll ops h)).
Proof.
  induction ops as [|op ops IH]; intros h H.
  - destruct H as [H | H]; [contradiction | exact H].
  - unfold App.applyAll. simpl. apply IH. right. apply apply_stores_history.
Qed.

(** After any completed or rated ride, a restart of the application finds
    the history exactly as it was: every change of the history is written
    to [localStorage] in the same step. *)
Theorem history_survives_restart :
  forall (ops : list App.HistoryOp) (h : App.HistoryState),
    ops <> [] \/ App.stored h = Some (App.rideHistory h) ->
    App.mount (App.stored (App.applyAll ops h)) = App.applyAll ops h.
Proof.
  intros ops h H. pose proof (applyAll_stores_history ops h H) as E.
  destruct (App.applyAll ops h) as [hist st]. simpl in *. subst st. reflexivity.
Qed.

Lemma history_survives_restart_witness :
  App.mount (App.stored (App.applyAll [App.Complete App.sampleRide "2026-01-01T10:00:00.000Z"
                                         "1 Jan 2026, 3:30 pm";
                                       App.Rate "2026-01-01T10:00:00.000Z" 5]
                                      (App.mount None)))
  = App.applyAll [App.Complete App.sampleRide "2026-01-01T10:00:00.000Z" "1 Jan 2026, 3:30 pm";
                  App.Rate "2026-01-01T10:00:00.000Z" 5] (App.mount None).
Proof.
  apply history_survives_restart. left. discriminate.
Defined.

(** Completed rides pile up newest first: after a series of completions the
    history is these rides in reverse order of completion, each with the
    pickup, destination and offer it was completed with and no rating,
    followed by the history there was. *)
Theorem completions_are_newest_first :
  forall (rides : list (RidePayload * string * string)) (h : App.HistoryState),
    App.rideHistory
      (App.applyAll (map (fun r => App.Complete (fst (fst r)) (snd (fst r)) (snd r)) rides) h)
    = (rev (map (fun r => App.completedBy (fst (fst r)) (snd (fst r)) (snd r)) rides)
       ++ App.rideHistory h)%list.
Proof.
  induction rides as [|[[ride iso] loc] rides IH]; intros h.
  - reflexivity.
  - unfold App.applyAll in *. simpl. rewrite IH. simpl.
    rewrite <- app_assoc. reflexivity.
Qed.

(** Rating a ride keeps the number and order of the rides and everything
    but the rating of each; it sets the rating of every ride with that id
    and of no other; with an id that no ride has it changes nothing; and a
    second rating of the same id replaces the first. *)
Theorem rating_changes_only_that_ride :
  forall (rideId : string) (rating : Z) (h : App.HistoryState),
    map (fun r => (cr_details r, cr_id r, cr_pickup r, cr_destination r, cr_date r))
        (App.rideHistory (App.handleRateRide rideId rating h))
    = map (fun r => (cr_details r, cr_id r, cr_pickup r, cr_destination r, cr_date r))
          (App.rideHistory h)
    /\ map cr_rating (App.rideHistory (App.handleRateRide rideId rating h))
       = map (fun r => if String.eqb (cr_id r) rideId then Some rating else cr_rating r)
             (App.rideHistory h)
    /\ (~ In rideId (map cr_id (App.rideHistory h)) ->
        App.rideHistory (App.handleRateRide rideId rating h) = App.rideHistory h)
    /\ (forall rating',
        App.handleRateRide rideId rating' (App.handleRateRide rideId rating h)
        = App.handleRateRide rideId rating' h).
Proof.
  intros rideId rating [hist st]. unfold App.handleRateRide. simpl.
  split; [| split; [| split]].
  - rewrite map_map. apply map_ext. intros r. destruct (String.eqb (cr_id r) rideId); reflexivity.
  - rewrite map_map. apply map_ext. intros r. destruct (String.eqb (cr_id r) rideId); reflexivity.
  - intros Hnot. induction hist as [|r hist IH]; [reflexivity |]. simpl in *.
    destruct (String.eqb (cr_id r) rideId) eqn:E.
    + apply String.eqb_eq in E. exfalso. apply Hnot. left. exact E.
    + f_equal. apply IH. intros Hin. apply Hnot. right. exact Hin.
  - intros rating'. f_equal; [| f_equal]; rewrite map_map; apply map_ext; intros r;
      destruct (String.eqb (cr_id r) rideId) eqn:E; simpl; rewrite ?E; reflexivity.
Qed.

Lemma rating_changes_only_that_ride_witness :
  App.rideHistory
    (App.handleRateRide "no such id" 4
       (App.handleRideComplete App.sampleRide "2026-01-01T10:00:00.000Z" "1 Jan 2026"
          (App.mount None)))
  = App.rideHistory
      (App.handleRideComplete App.sampleRide "2026-01-01T10:00:00.000Z" "1 Jan 2026"
         (App.mount None)).
Proof.
  apply (rating_changes_only_that_ride "no such id" 4
           (App.handleRideComplete App.sampleRide "2026-01-01T10:00:00.000Z" "1 Jan 2026"
              (App.mount None))).
  simpl. intros [H | H]; [discriminate H | exact H].
Defined.

(* ================================================================== *)
(** * Theorems: the chat view *)
(* ================================================================== *)

Lemma string_append_empty_r : forall s : string, s ++ "" = s.
Proof. induction s as [|c s IH]; simpl; [reflexivity | now rewrite IH]. Qed.

Lemma string_append_assoc : forall a b c : string, (a ++ b) ++ c = a ++ (b ++ c).
Proof. induction a as [|x a IH]; intros b c; simpl; [reflexivity | now rewrite IH]. Qed.

Lemma setLastText_snoc :
  forall (t : string) (l : list ChatBotView.ChatMessage) (m : ChatBotView.ChatMessage),
    ChatBotView.setLastText t (l ++ [m])
    = Some (l ++ [ChatBotView.mkChatMessage (ChatBotView.sender m) t])%list.
Proof.
  induction l as [|x l IH]; intros m; [reflexivity |].
  change ((x :: l) ++ [m])%list with (x :: (l ++ [m]))%list.
  cbn [ChatBotView.setLastText]. rewrite IH.
  destruct (l ++ [m])%list eqn:E; [destruct l; discriminate E | reflexivity].
Qed.

Lemma streamInto_snoc :
  forall (cs : list string) (cur : string) (l : list ChatBotView.ChatMessage)
         (who : ChatBotView.Sender),
    ChatBotView.streamInto cs cur (l ++ [ChatBotView.mkChatMessage who cur])
    = Some (l ++ [ChatBotView.mkChatMessage who (cur ++ JsText.joined cs)])%list.
Proof.
  induction cs as [|c cs IH]; intros cur l who; simpl.
  - rewrite string_append_empty_r. reflexivity.
  - rewrite setLastText_snoc. simpl. rewrite IH, string_append_assoc. reflexivity.
Qed.

(** A send never fails in an updater, and its result is: nothing at all
    when the trimmed input is empty or an answer is still loading;
    otherwise the messages there were, unchanged, followed by the user's
    trimmed text and one answer bubble - all the chunks of the stream in
    order, or only the apology when the stream threw at any point, or
    nothing when there is no session - with the input cleared and the
    loading flag off. *)
Theorem handleSendMessage_result :
  forall (session : bool) (stream : ChatBotView.Stream) (st : ChatBotView.ChatState),
    ChatBotView.handleSendMessage session stream st
    = if Js.isEmpty (JsText.trim (ChatBotView.inputValue st)) || ChatBotView.isLoading st
      then Some (st, None)
      else Some (ChatBotView.mkChatState
                   (ChatBotView.messages st
                    ++ [ChatBotView.mkChatMessage ChatBotView.USER
                          (JsText.trim (ChatBotView.inputValue st));
                        ChatBotView.mkChatMessage ChatBotView.GEMINI
                          (ChatBotView.answerOf session stream)])%list
                   "" false,
                 if session then Some (JsText.trim (ChatBotView.inputValue st)) else None).
Proof.
  intros session [cs fails] [msgs input loading].
  unfold ChatBotView.handleSendMessage, ChatBotView.answerOf. simpl.
  destruct (Js.isEmpty (JsText.trim input) || loading); [reflexivity |].
  destruct session; [| reflexivity].
  change (msgs ++ [ChatBotView.mkChatMessage ChatBotView.USER (JsText.trim input);
                   ChatBotView.mkChatMessage ChatBotView.GEMINI ""])%list
    with (msgs ++ ([ChatBotView.mkChatMessage ChatBotView.USER (JsText.trim input)]
                   ++ [ChatBotView.mkChatMessage ChatBotView.GEMINI ""]))%list.
  rewrite app_assoc, streamInto_snoc. simpl.
  destruct fails; [| rewrite <- app_assoc; reflexivity].
  rewrite setLastText_snoc. simpl. rewrite <- app_assoc. reflexivity.
Qed.

Lemma trimStart_whiteSpace :
  forall (cp : N) (s : string),
    In cp Js.whiteSpaceCodePoints -> Js.trimStart (Js.utf8 cp ++ s) = Js.trimStart s.
Proof.
  intros cp s H. unfold Js.whiteSpaceCodePoints in H. cbn [In] in H.
  repeat (destruct H as [H | H]; [subst cp; reflexivity |]).
  contradiction.
Qed.

Lemma trimStart_isBlank :
  forall s : string, JsText.isBlank s -> Js.trimStart s = "".
Proof.
  intros s [cps [Hws ->]].
  induction cps as [|cp cps IH]; [reflexivity |].
  cbn [Js.text fold_right].
  rewrite trimStart_whiteSpace by (apply Hws; left; reflexivity).
  apply IH. intros c Hc. apply Hws. right. exact Hc.
Qed.

(** A submit whose input is empty or made of white space only - of any of
    the characters [trim] strips, the no-break space among them - or that
    comes while an answer is loading, changes nothing and sends nothing. *)
Theorem blank_or_busy_send_is_ignored :
  forall (session : bool) (stream : ChatBotView.Stream) (st : ChatBotView.ChatState),
    JsText.isBlank (ChatBotView.inputValue st) \/ ChatBotView.isLoading st = true ->
    ChatBotView.handleSendMessage session stream st = Some (st, None).
Proof.
  intros session stream st H. unfold ChatBotView.handleSendMessage.
  destruct H as [H | H].
  - unfold JsText.trim. rewrite (trimStart_isBlank _ H). reflexivity.
  - rewrite H, orb_true_r. reflexivity.
Qed.

Lemma blank_or_busy_send_is_ignored_witness :
  ChatBotView.handleSendMessage true (ChatBotView.mkStream ["Hi"] false)
    (ChatBotView.mkChatState [ChatBotView.greeting] (Js.text [32; 160; 8232; 9]%N) false)
  = Some (ChatBotView.mkChatState [ChatBotView.greeting] (Js.text [32; 160; 8232; 9]%N) false,
          None).
Proof.
  apply blank_or_busy_send_is_ignored. left.
  exists [32; 160; 8232; 9]%N. split; [| reflexivity].
  intros cp Hcp. cbn [In] in Hcp. unfold Js.whiteSpaceCodePoints. cbn [In].
  repeat (destruct Hcp as [Hcp | Hcp]; [subst cp; auto 30 |]). contradiction.
Defined.

(** [trim] strips white space of one, two and three bytes at both ends and
    keeps it inside; [length] counts UTF-16 code units, so the six bytes of
    two Devanagari letters are two, and the four bytes of U+1F600 are two. *)
Example trim_and_length :
  JsText.trim (Js.text [160; 32; 104; 105; 160; 33; 8232; 9; 65279]%N)
  = Js.text [104; 105; 160; 33]%N
  /\ Js.length (Js.text [2328; 2352]%N) = 2%nat
  /\ String.length (Js.text [2328; 2352]%N) = 6%nat
  /\ Js.length (Js.text [128512]%N) = 2%nat
  /\ Js.parseInt (Js.text [160; 56; 32; 109; 105; 110]%N) = Some 8.
Proof. repeat split. Qed.

Example chat_answers :
  option_map (fun r => map ChatBotView.text (ChatBotView.messages (fst r)))
    (ChatBotView.handleSendMessage true
       (ChatBotView.mkStream ["The fort "; "opens "; "at 9."] false)
       (ChatBotView.mkChatState [ChatBotView.greeting] "  When does the fort open? " false))
  = Some [ChatBotView.text ChatBotView.greeting; "When does the fort open?";
          "The fort opens at 9."]
  /\ option_map (fun r => map ChatBotView.text (ChatBotView.messages (fst r)))
       (ChatBotView.handleSendMessage true
          (ChatBotView.mkStream ["The fort "; "opens "] true)
          (ChatBotView.mkChatState [ChatBotView.greeting] "When does the fort open?" false))
     = Some [ChatBotView.text ChatBotView.greeting; "When does the fort open?";
             ChatBotView.apology].
Proof. split; reflexivity. Qed.

(* ================================================================== *)
(** * Theorems: the message shown while searching *)
(* ================================================================== *)

Lemma rotator_index :
  forall n : nat,
    LoadingMessage.messageIndex (LoadingMessage.ticks n LoadingMessage.start) = (n mod 4)%nat.
Proof.
  induction n as [|n IH]; [reflexivity |].
  cbn [LoadingMessage.ticks]. unfold LoadingMessage.tick.
  cbn [LoadingMessage.messageIndex]. rewrite IH.
  change (List.length LoadingMessage.messages) with 4%nat.
  replace (S n) with (n + 1)%nat by lia.
  apply Nat.Div0.add_mod_idemp_l.
Qed.

(** While a search lasts the rotator never reads past its list: after the
    [n]-th firing, [n] at least 1, it shows the message number [n mod 4] of
    the four - beginning with the second, "Calculating the fastest
    route...", the first coming fourth - and the text shown before the
    first firing, "Finding your ride...", does not come back. *)
Theorem rotator_cycles_through_the_four :
  forall n : nat,
    LoadingMessage.loadingMessage (LoadingMessage.ticks (S n) LoadingMessage.start)
    = nth_error LoadingMessage.messages (S n mod 4)
    /\ (exists m, LoadingMessage.loadingMessage (LoadingMessage.ticks (S n) LoadingMessage.start)
                  = Some m /\ In m LoadingMessage.messages)
    /\ LoadingMessage.loadingMessage (LoadingMessage.ticks (S n) LoadingMessage.start)
       <> Some "Finding your ride..."
    /\ LoadingMessage.ticks (S n + 4) LoadingMessage.start
       = LoadingMessage.ticks (S n) LoadingMessage.start.
Proof.
  intros n.
  assert (Hshape : forall k,
             LoadingMessage.ticks (S k) LoadingMessage.start
             = LoadingMessage.mkRotator (S k mod 4)
                 (nth_error LoadingMessage.messages (S k mod 4))).
  { intros k. pose proof (rotator_index (S k)) as Hi.
    cbn [LoadingMessage.ticks] in *. unfold LoadingMessage.tick in *.
    cbn [LoadingMessage.messageIndex] in Hi. rewrite Hi. reflexivity. }
  assert (Hlt : (S n mod 4 < 4)%nat) by (apply Nat.mod_upper_bound; lia).
  rewrite (Hshape n). cbn [LoadingMessage.loadingMessage].
  split; [reflexivity | split; [| split]].
  - destruct (S n mod 4)%nat as [|[|[|[|k]]]]; try lia;
      eexists; (split; [reflexivity | simpl; auto]).
  - destruct (S n mod 4)%nat as [|[|[|[|k]]]]; try lia; discriminate.
  - replace (S n + 4)%nat with (S (n + 4)) by lia. rewrite (Hshape (n + 4)%nat).
    replace (S (n + 4)) with (S n + 1 * 4)%nat by lia.
    rewrite Nat.Div0.mod_add. reflexivity.
Qed.

Example rotator_first_firings :
  map (fun n => LoadingMessage.loadingMessage (LoadingMessage.ticks n LoadingMessage.start))
      [0; 1; 2; 3; 4; 5]%nat
  = [Some "Finding your ride..."; Some "Calculating the fastest route...";
     Some "Checking traffic conditions..."; Some "Finalizing your trip details...";
     Some "Contacting nearby drivers..."; Some "Calculating the fastest route..."].
Proof. reflexivity. Qed.

(* ================================================================== *)
(** * Theorems: invariants of the orchestrator *)
(* ================================================================== *)

Lemma forallb_removeNth :
  forall (A : Type) (f : A -> bool) (k : nat) (l : list A),
    forallb f l = true -> forallb f (removeNth k l) = true.
Proof.
  intros A f k l. revert k. unfold removeNth.
  induction l as [|x l IH]; intros k H.
  - destruct k; reflexivity.
  - simpl in H. apply andb_prop in H. destruct H as [Hx Hl].
    destruct k as [|k]; simpl.
    + exact Hl.
    + rewrite Hx. exact (IH k Hl).
Qed.

Lemma fold_perform_fields :
  forall (cmds : list Cmd) (w : Orchestrator.World),
    Orchestrator.ui (fold_left Orchestrator.perform cmds w) = Orchestrator.ui w
    /\ Orchestrator.clock (fold_left Orchestrator.perform cmds w) = Orchestrator.clock w
    /\ Orchestrator.timers (fold_left Orchestrator.perform cmds w)
       = (Orchestrator.timers w ++ timersStarted (Orchestrator.clock w) cmds)%list
    /\ Orchestrator.completed (fold_left Orchestrator.perform cmds w)
       = (Orchestrator.completed w ++ ridesHanded cmds)%list.
Proof.
  induction cmds as [|c cmds IH]; intros w; simpl.
  - rewrite !app_nil_r. auto.
  - destruct (IH (Orchestrator.perform w c)) as [Hu [Hc [Ht Hr]]].
    rewrite Hu, Hc, Ht, Hr.
    destruct c; simpl; rewrite ?app_nil_r, <- ?app_assoc; auto.
Qed.

Lemma commit_fields :
  forall (r : State * list Cmd) (w : Orchestrator.World),
    Orchestrator.ui (Orchestrator.commit r w) = clampEffect (fst r)
    /\ Orchestrator.clock (Orchestrator.commit r w) = Orchestrator.clock w
    /\ Orchestrator.timers (Orchestrator.commit r w)
       = (Orchestrator.timers w ++ timersStarted (Orchestrator.clock w) (snd r))%list
    /\ Orchestrator.completed (Orchestrator.commit r w)
       = (Orchestrator.completed w ++ ridesHanded (snd r))%list.
Proof.
  intros r w. unfold Orchestrator.commit.
  cbn [Orchestrator.ui Orchestrator.clock Orchestrator.timers Orchestrator.completed
       Orchestrator.withGpayIsProcessing].
  destruct (fold_perform_fields (snd r) (Orchestrator.withUi (clampEffect (fst r)) w))
    as [Hu [Hc [Ht Hr]]].
  rewrite Hu, Hc, Ht, Hr. auto.
Qed.

Lemma step_consistent :
  forall (a : Orchestrator.Action) (w w' : Orchestrator.World),
    Orchestrator.step a w = Some w' -> consistent w -> consistent w'.
Proof.
  intros a [s clk tms srch gp comp tst] w' Hstep [Hui Htm].
  cbn [Orchestrator.ui Orchestrator.timers] in Hui, Htm.
  destruct a; unfold Orchestrator.step, Orchestrator.when, Orchestrator.dispatch in Hstep;
    cbn [Orchestrator.ui Orchestrator.timers Orchestrator.searches Orchestrator.clock
         Orchestrator.gpayIsProcessing] in Hstep;
    repeat match type of Hstep with
           | (if ?b then _ else _) = Some _ => destruct b eqn:?G; [| discriminate Hstep]
           | match ?x with Some _ => _ | None => _ end = Some _ =>
               destruct x as [[? ?]|] eqn:?; [| discriminate Hstep]
           end;
    injection Hstep as <-;
    try match goal with r : (RideDetails + Js.Error)%type |- _ => destruct r end;
    unfold consistent;
    cbn [Orchestrator.ui Orchestrator.timers Orchestrator.withGpayIsProcessing
         Orchestrator.withClock];
    rewrite ?(proj1 (commit_fields _ _)),
            ?(proj1 (proj2 (proj2 (commit_fields _ _))));
    cbn [Orchestrator.ui Orchestrator.timers Orchestrator.clock Orchestrator.withSearches
         Orchestrator.withTimers].
  all: (split;
        [| rewrite ?forallb_app; try (apply andb_true_intro; split);
           try exact Htm; try (apply forallb_removeNth; exact Htm) ]).
  all: destruct s as [pk ds vh pc rs rd er pm sh sr mv dp cs cr fe ie de tl sm gm].
  all: run_handlers.
  all: repeat match goal with
              | H : (_ && _) = true |- _ => apply andb_prop in H; destruct H
              end.
  all: split_tests.
  all: cbn [app forallb snd isSome andb] in *.
  all: repeat match goal with
              | H : ?x = true |- context [?x] => rewrite H
              end.
  all: cbn [andb] in *.
  all: try reflexivity; try discriminate.
  all: try (destruct Hui as [Hc [? ?]]; split; [| split]; auto; try lia).
  all: try (intros Hc'; try discriminate Hc';
            first [exact (Hc Hc') | exact (Hc eq_refl)]).
  all: try (split; auto; destruct vh; cbv; intuition discriminate).
  all: try (match goal with |- 1 <= maxPassengers ?v <= _ => destruct v; cbv; intuition discriminate end).
  right.
  match goal with
  | H : existsb _ _ = true |- _ =>
      apply existsb_exists in H; destruct H as [x [Hin Hx]];
      apply String.eqb_eq in Hx; subst x; exact Hin
  end.
Qed.

Lemma run_consistent :
  forall (acts : list Orchestrator.Action) (w0 w : Orchestrator.World),
    consistent w0 -> Orchestrator.run acts w0 = Some w -> consistent w.
Proof.
  induction acts as [|a acts IH]; intros w0 w H0 Hrun; simpl in Hrun.
  - injection Hrun as <-. exact H0.
  - destruct (Orchestrator.step a w0) as [w1|] eqn:Hstep; [| discriminate Hrun].
    exact (IH w1 w (step_consistent a w0 w1 Hstep H0) Hrun).
Qed.

Lemma initialWorld_consistent : consistent Orchestrator.initialWorld.
Proof.
  split; [| reflexivity].
  split; [discriminate |].
  split; [cbv; intuition discriminate | left; reflexivity].
Qed.

Lemma reachable_consistent :
  forall w : Orchestrator.World, Orchestrator.reachable w -> consistent w.
Proof.
  intros w [acts Hrun]. exact (run_consistent acts _ w initialWorld_consistent Hrun).
Qed.



(** The passenger count stays between 1 and the capacity of the chosen
    vehicle, whatever is clicked. *)
Theorem passenger_count_within_capacity :
  forall w : Orchestrator.World,
    Orchestrator.reachable w ->
    1 <= passengerCount (Orchestrator.ui w) <= maxPassengers (vehicle (Orchestrator.ui w)).
Proof.
  intros w Hr. destruct (reachable_consistent w Hr) as [[_ [H _]] _]. exact H.
Qed.

Lemma passenger_count_within_capacity_witness :
  exists w : Orchestrator.World,
    Orchestrator.run
      [Orchestrator.ClickVehicle CAR; Orchestrator.ClickIncrement;
       Orchestrator.ClickIncrement; Orchestrator.ClickVehicle BIKE]
      Orchestrator.initialWorld = Some w
    /\ 1 <= passengerCount (Orchestrator.ui w) <= maxPassengers (vehicle (Orchestrator.ui w)).
Proof.
  eexists. split; [vm_compute; reflexivity |].
  apply passenger_count_within_capacity.
  exists [Orchestrator.ClickVehicle CAR; Orchestrator.ClickIncrement;
          Orchestrator.ClickIncrement; Orchestrator.ClickVehicle BIKE].
  vm_compute; reflexivity.
Defined.

(** The cancellation reason is empty or one of the listed reasons. *)
Theorem cancellation_reason_is_listed :
  forall w : Orchestrator.World,
    Orchestrator.reachable w ->
    cancellationReason (Orchestrator.ui w) = ""
    \/ In (cancellationReason (Orchestrator.ui w)) CANCELLATION_REASONS.
Proof.
  intros w Hr. destruct (reachable_consistent w Hr) as [[_ [_ H]] _]. exact H.
Qed.

Lemma cancellation_reason_is_listed_witness :
  exists w : Orchestrator.World,
    Orchestrator.run (firstn 11 Orchestrator.bookPayCancel) Orchestrator.initialWorld = Some w
    /\ (cancellationReason (Orchestrator.ui w) = ""
        \/ In (cancellationReason (Orchestrator.ui w)) CANCELLATION_REASONS).
Proof.
  eexists. split; [vm_compute; reflexivity |].
  apply cancellation_reason_is_listed. exists (firstn 11 Orchestrator.bookPayCancel).
  vm_compute; reflexivity.
Defined.



(** While one payment is pending, the button of every other method is
    still enabled, and choosing a second method that is not Google Pay
    starts a second timer that holds the same ride as the first. *)
Theorem second_method_starts_second_timer :
  forall (m1 m2 : PaymentMethod) (w w1 : Orchestrator.World),
    Orchestrator.step (Orchestrator.ClickPay m1) w = Some w1 ->
    PaymentType_eqb (pm_type m1) GOOGLE_PAY = false ->
    PaymentType_eqb (pm_type m2) GOOGLE_PAY = false ->
    String.eqb (pm_id m1) (pm_id m2) = false ->
    exists (w2 : Orchestrator.World) (d1 d2 : Z),
      Orchestrator.step (Orchestrator.ClickPay m2) w1 = Some w2
      /\ Orchestrator.timers w2
         = (Orchestrator.timers w
            ++ [(Orchestrator.clock w + d1, CompleteRide (closureOf (Orchestrator.ui w)));
                (Orchestrator.clock w + d2, CompleteRide (closureOf (Orchestrator.ui w)))])%list.
Proof.
  intros m1 m2 [s clk tms srch gp comp tst] w1 Hstep Hm1 Hm2 Hid.
  unfold Orchestrator.step, Orchestrator.when, Orchestrator.dispatch in Hstep.
  cbn [Orchestrator.ui] in Hstep.
  destruct (Orchestrator.sheetClickable s && Orchestrator.cardShown s
            && negb (Orchestrator.isPaying s m1)) eqn:G; [| discriminate Hstep].
  injection Hstep as <-.
  apply andb_prop in G. destruct G as [G _]. apply andb_prop in G. destruct G as [Gs Gc].
  destruct s as [pk ds vh pc rs rd er pm sh sr mv dp cs cr fe ie de tl sm gm].
  unfold Orchestrator.step, Orchestrator.when, Orchestrator.dispatch.
  rewrite !(proj1 (commit_fields _ _)).
  cbn [Orchestrator.ui Orchestrator.clock Orchestrator.timers].
  run_handlers. rewrite Hm1, Hm2 in *.
  apply andb_prop in Gs. destruct Gs as [Gs Gsm]. apply andb_prop in Gs. destruct Gs as [Gg Gd].
  apply andb_prop in Gc. destruct Gc as [Grs Grd].
  destruct (pc >? maxPassengers vh) eqn:Hpc; cbv beta iota;
    rewrite Gg, Gd, Gsm, Grs, Grd, Hid; cbn [andb negb];
    eexists; exists (if PaymentType_eqb (pm_type m1) CASH then 500 else 2000),
               (if PaymentType_eqb (pm_type m2) CASH then 500 else 2000);
    (split; [reflexivity |]);
    rewrite !(proj1 (proj2 (proj2 (commit_fields _ _))));
    cbn [Orchestrator.timers Orchestrator.clock];
    rewrite !(proj1 (proj2 (commit_fields _ _)));
    cbn [Orchestrator.timers Orchestrator.clock];
    run_handlers; rewrite ?Hm1, ?Hm2; cbn [app];
    rewrite <- app_assoc; reflexivity.
Qed.

Lemma second_method_starts_second_timer_witness :
  exists w w1 : Orchestrator.World,
    Orchestrator.run bookRide Orchestrator.initialWorld = Some w
    /\ Orchestrator.step (Orchestrator.ClickPay Orchestrator.visa) w = Some w1
    /\ exists (w2 : Orchestrator.World) (d1 d2 : Z),
         Orchestrator.step (Orchestrator.ClickPay Orchestrator.cash) w1 = Some w2
         /\ Orchestrator.timers w2
            = (Orchestrator.timers w
               ++ [(Orchestrator.clock w + d1, CompleteRide (closureOf (Orchestrator.ui w)));
                   (Orchestrator.clock w + d2, CompleteRide (closureOf (Orchestrator.ui w)))])%list.
Proof.
  eexists. eexists.
  split; [vm_compute; reflexivity |].
  split; [vm_compute; reflexivity |].
  refine (second_method_starts_second_timer Orchestrator.visa Orchestrator.cash _ _ _ _ _ _);
    vm_compute; reflexivity.
Defined.

(* ================================================================== *)
(** * Theorems: invariants of the fare estimator *)
(* ================================================================== *)

Lemma est_run_preserves :
  forall P : FareEstimator.Est -> Prop,
    (forall a w w', FareEstimator.step a w = Some w' -> P w -> P w') ->
    forall acts w0 w, P w0 -> FareEstimator.run acts w0 = Some w -> P w.
Proof.
  intros P Hstep. induction acts as [|a acts IH]; intros w0 w H0 Hrun; simpl in Hrun.
  - injection Hrun as <-. exact H0.
  - destruct (FareEstimator.step a w0) as [w1|] eqn:E; [| discriminate Hrun].
    exact (IH w1 w (Hstep a w0 w1 E H0) Hrun).
Qed.

Lemma issued_estimateTimerFires :
  forall (i : Inputs) (s : State),
    FareEstimator.issued (snd (estimateTimerFires i s))
    = if longEnough i then [i] else [].
Proof.
  intros [p d v pc] s. unfold estimateTimerFires, longEnough. cbn [in_p in_d in_v in_pc].
  destruct ((Z.of_nat (Js.length p) >? 2) && (Z.of_nat (Js.length d) >? 2));
    reflexivity.
Qed.

Lemma isEstimating_estimateTimerFires :
  forall (i : Inputs) (s : State),
    isEstimating (fst (estimateTimerFires i s))
    = if longEnough i then true else isEstimating s.
Proof.
  intros i s. unfold estimateTimerFires, longEnough.
  destruct ((Z.of_nat (Js.length (in_p i)) >? 2)
            && (Z.of_nat (Js.length (in_d i)) >? 2));
    destruct s; reflexivity.
Qed.

(** [estimateFare] is only ever called with a pickup and a destination of
    more than two UTF-16 code units each, the [length] of the sources. *)
Theorem estimates_need_three_code_units :
  forall (w : FareEstimator.Est) (i : Inputs),
    estReachable w -> In i (FareEstimator.calls w) -> longEnough i = true.
Proof.
  intros w i [acts Hrun] Hin.
  assert (H : forallb longEnough (FareEstimator.calls w) = true).
  { refine (est_run_preserves
              (fun w => forallb longEnough (FareEstimator.calls w) = true)
              _ acts FareEstimator.initialEst w eq_refl Hrun).
    intros a w0 w1 Hstep H0.
    destruct a; unfold FareEstimator.step, FareEstimator.when in Hstep.
    - injection Hstep as <-. exact H0.
    - destruct (_ && _); [| discriminate Hstep]. injection Hstep as <-. exact H0.
    - destruct (FareEstimator.timeoutId w0) as [[due j]|]; [| discriminate Hstep].
      destruct (due <=? FareEstimator.now w0); [| discriminate Hstep].
      injection Hstep as <-. cbn [FareEstimator.calls].
      rewrite issued_estimateTimerFires, forallb_app, H0.
      destruct (longEnough j) eqn:Hj; cbn [forallb andb]; rewrite ?Hj; reflexivity.
    - destruct (nth_error (FareEstimator.inflight w0) k); [| discriminate Hstep].
      injection Hstep as <-. exact H0. }
  exact (proj1 (forallb_forall _ _) H i Hin).
Qed.

Lemma estimates_need_three_code_units_witness :
  exists w : FareEstimator.Est,
    FareEstimator.run typeAndWait FareEstimator.initialEst = Some w
    /\ In (mkInputs "MG Road" "Bus Stand" AUTO 1) (FareEstimator.calls w)
    /\ longEnough (mkInputs "MG Road" "Bus Stand" AUTO 1) = true.
Proof.
  eexists. split; [vm_compute; reflexivity |].
  match goal with
  | |- In ?i (FareEstimator.calls ?W) /\ _ =>
      assert (Hin : In i (FareEstimator.calls W)) by (left; reflexivity);
      split; [exact Hin |];
      refine (estimates_need_three_code_units W i _ Hin)
  end.
  exists typeAndWait. vm_compute; reflexivity.
Defined.

(** While "Estimating fare..." is shown, a call of [estimateFare] is
    awaited. *)
Theorem estimating_means_awaiting :
  forall w : FareEstimator.Est,
    estReachable w ->
    isEstimating (FareEstimator.ui w) = true -> FareEstimator.inflight w <> [].
Proof.
  intros w [acts Hrun].
  refine (est_run_preserves
            (fun w => isEstimating (FareEstimator.ui w) = true
                      -> FareEstimator.inflight w <> [])
            _ acts FareEstimator.initialEst w _ Hrun); [| discriminate].
  clear. intros a w0 w1 Hstep H0.
  destruct a; unfold FareEstimator.step, FareEstimator.when in Hstep.
  - injection Hstep as <-. cbn [FareEstimator.ui FareEstimator.inflight].
    destruct (FareEstimator.ui w0); exact H0.
  - destruct (_ && _); [| discriminate Hstep]. injection Hstep as <-. exact H0.
  - destruct (FareEstimator.timeoutId w0) as [[due j]|]; [| discriminate Hstep].
    destruct (due <=? FareEstimator.now w0); [| discriminate Hstep].
    injection Hstep as <-. cbn [FareEstimator.ui FareEstimator.inflight].
    rewrite issued_estimateTimerFires, isEstimating_estimateTimerFires.
    destruct (longEnough j).
    + intros _ Habs. apply app_eq_nil in Habs. destruct Habs as [_ Habs]. discriminate Habs.
    + rewrite app_nil_r. exact H0.
  - destruct (nth_error (FareEstimator.inflight w0) k); [| discriminate Hstep].
    injection Hstep as <-. cbn [FareEstimator.ui FareEstimator.inflight].
    intros Habs. exfalso. revert Habs. clear.
    destruct r; destruct (FareEstimator.ui w0); discriminate.
Qed.

Lemma estimating_means_awaiting_witness :
  exists w : FareEstimator.Est,
    FareEstimator.run typeAndWait FareEstimator.initialEst = Some w
    /\ FareEstimator.inflight w <> [].
Proof.
  eexists. split; [vm_compute; reflexivity |].
  apply estimating_means_awaiting; [exists typeAndWait |]; vm_compute; reflexivity.
Defined.

(** The converse fails: the first answer switches the indicator off while
    the second call is still awaited. *)
Example indicator_off_while_awaiting :
  option_map (fun w => (isEstimating (FareEstimator.ui w),
                        List.length (FareEstimator.inflight w)))
    (FareEstimator.run twoCallsOneAnswer FareEstimator.initialEst)
  = Some (false, 1%nat).
Proof. vm_compute. reflexivity. Qed.

(** A pickup of two Devanagari letters is six bytes and two code units: no
    call is made for it. *)
Example two_letters_make_no_call :
  option_map FareEstimator.calls
    (FareEstimator.run typeTwoLetters FareEstimator.initialEst) = Some [].
Proof. vm_compute. reflexivity. Qed.
